(** * The OAuth credential lifecycle of [src/zoho_auth.py]

    A shallow embedding of the [ZohoAuth] class and of the [CallbackServer]
    request handler, followed by the properties of the credential
    lifecycle: loading, saving, validity, refresh, interactive
    authorization and revocation. A second part embeds the callers in
    [src/server.py]: the initialization of the module, the wrapper
    [require_auth], [make_api_request] and the tools built on it.

    Conventions of the embedding.
    - Python values that flow through the credential fields come from
      [json.load] and [response.json()], so they are modelled by [json];
      [None] is [JNull].
    - Time stamps and lifetimes are exact rationals, in seconds; the
      rounding of floating-point [+] and [-] is abstracted.
    - Methods run in a state-and-exception monad [M] over [state], which
      pairs the object ([self]) with the outside world ([sys]): the token
      file and the contents it went through, the clock, the log, the
      standard output, the trace of network and listener effects, and the
      scripted behaviour of the environment (replies of the provider,
      requests reaching the listener, I/O faults).
    - State changes made before an exception is raised are kept, as in
      Python.
    - Only the waits of the callback listener take time; every call to the
      provider comes back, with a response or with an exception. *)

From Stdlib Require Import QArith Lqa.
From stdpp Require Import gmap strings list.

Set Warnings "-register-all".

(** ** Values *)

Inductive json :=
| JNull
| JBool (b : bool)
| JNum (q : Q)
| JStr (s : string)
| JArr (xs : list json)
| JObj (kvs : gmap string json).

(** Python truthiness, as used by [not x], [x or y] and [if x]. *)
Definition truthy (v : json) : bool :=
  match v with
  | JNull => false
  | JBool b => b
  | JNum q => negb (Qeq_bool q 0)
  | JStr s => match s with EmptyString => false | String _ _ => true end
  | JArr xs => match xs with [] => false | _ :: _ => true end
  | JObj kvs => negb (Nat.eqb (size kvs) 0)
  end.

(** [a or b] *)
Definition py_or (a b : json) : json := if truthy a then a else b.

(** The operand of an arithmetic operation with a float: numbers, and
    booleans (a subclass of [int]); anything else is a [TypeError]. *)
Definition as_number (v : json) : option Q :=
  match v with
  | JNum q => Some q
  | JBool b => Some (if b then 1%Q else 0%Q)
  | _ => None
  end.

Definition Qltb (a b : Q) : bool := if Qlt_le_dec a b then true else false.

(** ** The object and the world *)

Record config := {
  client_id : string;
  client_secret : string;
  redirect_uri : string;
  scope : string;
  token_file_path : string;
  api_domain : string;
  accounts_domain : string }.

Record ZohoAuth := {
  cfg : config;
  access_token : json;
  refresh_token : json;
  token_expires_at : json;
  api_domain_for_tokens : json }.

(** The token file, seen through [json.load]: absent, holding text that
    [json.load] rejects, or holding a document that it parses to [j]. *)
Inductive file :=
| Missing
| Text (s : string)
| Doc (j : json).

Inductive level := INFO | WARNING | ERROR.

(** What [requests.post] meets: a network failure (it raises), or a
    response with a status, a text and the value of [response.json()]
    ([None] when the body is not JSON and [json()] raises). *)
Inductive reply :=
| NetError
| Response (status_code : Z) (text : string) (body : option json).

(** A request reaching the callback listener: the request target
    ([self.path]) and the value of [parse_qs(urlparse(self.path).query)].
    [parse_qs] maps a present key to a non-empty list, of which the code
    reads element [0] only; the model keeps that element. *)
Record request := {
  req_path : string;
  query_params : gmap string string }.

(** The request arrives [wait_ms] milliseconds after the listener starts
    waiting for it. *)
Record arrival := {
  wait_ms : N;
  req : request }.

Inductive effect :=
| HttpPost (url : string) (data : list (string * json))
| Bind (host : string) (port : Z)
| OpenBrowser (url : string) (params : list (string * string))
| SendResponse (code : Z).

(** Operations of the operating system that may fail with [OSError].
    [dump_leaves] is the part of the record that a failing write has put
    in the file by the time it fails: nothing for a record that fits the
    buffer of the file object, a proper prefix of the record otherwise. *)
Record faults := {
  mkdir_fails : bool;
  open_r_fails : bool;
  open_w_fails : bool;
  dump_fails : bool;
  dump_leaves : string;
  remove_fails : bool;
  bind_fails : bool }.

(** [written] lists, oldest first, every content that an operation of this
    process gave to the token file: what a reader running beside the
    process may find there. *)
Record world := {
  token_file : file;
  written : list file;
  clock : Q;
  logged : list (level * string);
  printed : list string;
  trace : list effect;
  replies : list reply;
  incoming : list arrival;
  io : faults }.

Record state := {
  self : ZohoAuth;
  sys : world }.

(** ** The monad *)

Inductive exn :=
| TypeError
| AttributeError
| KeyError
| OSError
| JSONDecodeError
| RequestException
| OverflowError.

(** [Hang] is a loop of the model that ran out of fuel; no handler
    catches it. *)
Inductive outcome (A : Type) :=
| Ret (a : A)
| Exc (e : exn)
| Hang.
Arguments Ret {A} a.
Arguments Exc {A} e.
Arguments Hang {A}.

Definition M (A : Type) : Type := state -> outcome A * state.

Definition ret {A} (a : A) : M A := fun s => (Ret a, s).

Definition bind {A B} (c : M A) (k : A -> M B) : M B :=
  fun s =>
    match c s with
    | (Ret a, s') => k a s'
    | (Exc e, s') => (Exc e, s')
    | (Hang, s') => (Hang, s')
    end.

Definition raise {A} (e : exn) : M A := fun s => (Exc e, s).

Definition hang {A} : M A := fun s => (Hang, s).

(** [try: body except Exception as e: handler e] *)
Definition try_except {A} (body : M A) (handler : exn -> M A) : M A :=
  fun s =>
    match body s with
    | (Exc e, s') => handler e s'
    | r => r
    end.

Declare Scope py_scope.
Delimit Scope py_scope with py.
Notation "x <- c ;; k" := (bind c (fun x => k))
  (at level 100, c at next level, right associativity) : py_scope.
Notation "c ;; k" := (bind c (fun _ => k))
  (at level 100, right associativity) : py_scope.
Local Open Scope py_scope.

Definition get_self : M ZohoAuth := fun s => (Ret (self s), s).
Definition get_sys : M world := fun s => (Ret (sys s), s).
Definition modify_self (f : ZohoAuth -> ZohoAuth) : M unit :=
  fun s => (Ret tt, {| self := f (self s); sys := sys s |}).
Definition modify_sys (f : world -> world) : M unit :=
  fun s => (Ret tt, {| self := self s; sys := f (sys s) |}).

(** *** Field updates *)

Definition with_access_token (v : json) (a : ZohoAuth) : ZohoAuth :=
  {| cfg := cfg a; access_token := v; refresh_token := refresh_token a;
     token_expires_at := token_expires_at a;
     api_domain_for_tokens := api_domain_for_tokens a |}.
Definition with_refresh_token (v : json) (a : ZohoAuth) : ZohoAuth :=
  {| cfg := cfg a; access_token := access_token a; refresh_token := v;
     token_expires_at := token_expires_at a;
     api_domain_for_tokens := api_domain_for_tokens a |}.
Definition with_token_expires_at (v : json) (a : ZohoAuth) : ZohoAuth :=
  {| cfg := cfg a; access_token := access_token a;
     refresh_token := refresh_token a; token_expires_at := v;
     api_domain_for_tokens := api_domain_for_tokens a |}.
Definition with_api_domain_for_tokens (v : json) (a : ZohoAuth) : ZohoAuth :=
  {| cfg := cfg a; access_token := access_token a;
     refresh_token := refresh_token a;
     token_expires_at := token_expires_at a; api_domain_for_tokens := v |}.

Definition with_token_file (f : file) (w : world) : world :=
  {| token_file := f; written := written w ++ [f]; clock := clock w;
     logged := logged w;
     printed := printed w; trace := trace w; replies := replies w;
     incoming := incoming w; io := io w |}.
Definition with_clock (t : Q) (w : world) : world :=
  {| token_file := token_file w; written := written w; clock := t;
     logged := logged w;
     printed := printed w; trace := trace w; replies := replies w;
     incoming := incoming w; io := io w |}.
Definition with_logged (l : list (level * string)) (w : world) : world :=
  {| token_file := token_file w; written := written w; clock := clock w;
     logged := l;
     printed := printed w; trace := trace w; replies := replies w;
     incoming := incoming w; io := io w |}.
Definition with_printed (l : list string) (w : world) : world :=
  {| token_file := token_file w; written := written w; clock := clock w;
     logged := logged w;
     printed := l; trace := trace w; replies := replies w;
     incoming := incoming w; io := io w |}.
Definition with_trace (l : list effect) (w : world) : world :=
  {| token_file := token_file w; written := written w; clock := clock w;
     logged := logged w;
     printed := printed w; trace := l; replies := replies w;
     incoming := incoming w; io := io w |}.
Definition with_replies (l : list reply) (w : world) : world :=
  {| token_file := token_file w; written := written w; clock := clock w;
     logged := logged w;
     printed := printed w; trace := trace w; replies := l;
     incoming := incoming w; io := io w |}.
Definition with_incoming (l : list arrival) (w : world) : world :=
  {| token_file := token_file w; written := written w; clock := clock w;
     logged := logged w;
     printed := printed w; trace := trace w; replies := replies w;
     incoming := l; io := io w |}.

(** ** Primitives of the runtime and of the libraries *)

(** [logger.info], [logger.warning], [logger.error]: the entry keeps the
    level and the fixed part of the message. *)
Definition logger (l : level) (msg : string) : M unit :=
  modify_sys (fun w => with_logged (logged w ++ [(l, msg)]) w).

Definition print (msg : string) : M unit :=
  modify_sys (fun w => with_printed (printed w ++ [msg]) w).

Definition emit (e : effect) : M unit :=
  modify_sys (fun w => with_trace (trace w ++ [e]) w).

(** [time.time()] *)
Definition time_time : M Q := fun s => (Ret (clock (sys s)), s).

(** [d.get(key, default)]: only a [dict] has the method. *)
Definition dict_get (d : json) (key : string) (dflt : json) : M json :=
  match d with
  | JObj kvs => ret (default dflt (kvs !! key))
  | _ => raise AttributeError
  end.

(** [d[key]] on a [dict] built by the code. *)
Definition dict_item (d : gmap string json) (key : string) : M json :=
  match d !! key with
  | Some v => ret v
  | None => raise KeyError
  end.

(** The integers that convert to a float are those below [float_limit] in
    absolute value: the conversion rounds to the nearest float, and from
    [2^1024 - 2^970] on it raises [OverflowError]. A number that is a float
    already is finite, hence below the limit. *)
Definition float_limit : Q := inject_Z (2 ^ 1024 - 2 ^ 970).

Definition fits_float (q : Q) : bool :=
  Qltb (- float_limit) q && Qltb q float_limit.

(** [t + v] with [t] a float: the other operand is converted to a float,
    which an integer may be too large for. *)
Definition float_add (t : Q) (v : json) : M Q :=
  match as_number v with
  | Some q => if fits_float q then ret (t + q)%Q else raise OverflowError
  | None => raise TypeError
  end.

(** [v - n] with [n] an integer: exact on integers of any size. *)

Definition sub_number (v : json) (n : Q) : M Q :=
  match as_number v with
  | Some q => ret (q - n)%Q
  | None => raise TypeError
  end.

(** [os.path.exists(self.token_file_path)] *)
Definition os_path_exists : M bool :=
  fun s =>
    (Ret (match token_file (sys s) with Missing => false | _ => true end), s).

(** [with open(self.token_file_path, 'r') as f: json.load(f)] *)
Definition json_load_file : M json :=
  fun s =>
    if open_r_fails (io (sys s)) then (Exc OSError, s)
    else
      match token_file (sys s) with
      | Missing => (Exc OSError, s)
      | Text _ => (Exc JSONDecodeError, s)
      | Doc j => (Ret j, s)
      end.

(** [os.makedirs(..., exist_ok=True)] *)
Definition os_makedirs : M unit :=
  fun s => if mkdir_fails (io (sys s)) then (Exc OSError, s) else (Ret tt, s).

(** [open(self.token_file_path, 'w')]: the file is created or truncated. *)
Definition open_w : M unit :=
  fun s =>
    if open_w_fails (io (sys s)) then (Exc OSError, s)
    else (Ret tt, {| self := self s;
                     sys := with_token_file (Text "") (sys s) |}).

(** What a failing write leaves of the file: what it had put there. *)
Definition left_by_dump (w : world) : world :=
  match dump_leaves (io w) with
  | EmptyString => w
  | String _ _ as t => with_token_file (Text t) w
  end.

(** [json.dump(token_data, f, indent=2)] and the close of the file: the
    buffered text reaches the file, which then parses to [token_data]. A
    write that fails leaves the part that had reached the file, which
    does not parse. *)
Definition json_dump (token_data : gmap string json) : M unit :=
  fun s =>
    if dump_fails (io (sys s)) then
      (Exc OSError, {| self := self s; sys := left_by_dump (sys s) |})
    else (Ret tt, {| self := self s;
                     sys := with_token_file (Doc (JObj token_data)) (sys s) |}).

(** [os.remove(self.token_file_path)] *)
Definition os_remove : M unit :=
  fun s =>
    if remove_fails (io (sys s)) then (Exc OSError, s)
    else
      match token_file (sys s) with
      | Missing => (Exc OSError, s)
      | _ => (Ret tt, {| self := self s;
                         sys := with_token_file Missing (sys s) |})
      end.

(** [requests.post(url, data=data)]: the call meets the next scripted
    reply; an exhausted script is an unreachable provider. The call is
    taken to come back, with a response or an exception. *)
Definition requests_post (url : string) (data : list (string * json))
  : M (Z * string * option json) :=
  emit (HttpPost url data) ;;
  w <- get_sys ;;
  modify_sys (with_replies (tail (replies w))) ;;
  match head (replies w) with
  | Some (Response c t b) => ret (c, t, b)
  | Some NetError | None => raise RequestException
  end.

(** [response.json()] *)
Definition response_json (body : option json) : M json :=
  match body with
  | Some j => ret j
  | None => raise JSONDecodeError
  end.

(** ** Token store *)

(** [ZohoAuth._load_tokens] *)
Definition _load_tokens : M unit :=
  a <- get_self ;;
  present <- os_path_exists ;;
  if present then
    try_except
      (tokens <- json_load_file ;;
       v <- dict_get tokens "access_token" JNull ;;
       modify_self (with_access_token v) ;;
       v <- dict_get tokens "refresh_token" JNull ;;
       modify_self (with_refresh_token v) ;;
       v <- dict_get tokens "expires_at" JNull ;;
       modify_self (with_token_expires_at v) ;;
       v <- dict_get tokens "api_domain" (JStr (api_domain (cfg a))) ;;
       modify_self (with_api_domain_for_tokens v) ;;
       logger INFO "Loaded existing tokens from file")
      (fun e => logger ERROR "Failed to load tokens")
  else ret tt.

(** [ZohoAuth.__init__]: the fields start as [None], then the file is
    loaded. *)
Definition __init__ (c : config) (w : world) : outcome unit * state :=
  _load_tokens
    {| self := {| cfg := c; access_token := JNull; refresh_token := JNull;
                  token_expires_at := JNull;
                  api_domain_for_tokens := JNull |};
       sys := w |}.

(** The record that [_save_tokens] builds from a response. *)
Definition token_data_of (v_access v_refresh v_expires v_domain v_type
                          v_scope : json) : gmap string json :=
  <["access_token" := v_access]>
  (<["refresh_token" := v_refresh]>
  (<["expires_at" := v_expires]>
  (<["api_domain" := v_domain]>
  (<["token_type" := v_type]>
  (<["scope" := v_scope]> ∅))))).

(** [ZohoAuth._save_tokens] *)
Definition _save_tokens (tokens : json) : M unit :=
  try_except
    (a <- get_self ;;
     t <- time_time ;;
     lifetime <- dict_get tokens "expires_in" (JNum 3600) ;;
     expires_at <- float_add t lifetime ;;
     v_access <- dict_get tokens "access_token" JNull ;;
     v_refresh <- dict_get tokens "refresh_token" (refresh_token a) ;;
     v_domain <- dict_get tokens "api_domain"
                   (py_or (api_domain_for_tokens a)
                          (JStr (api_domain (cfg a)))) ;;
     v_type <- dict_get tokens "token_type" (JStr "Bearer") ;;
     v_scope <- dict_get tokens "scope" (JStr (scope (cfg a))) ;;
     let token_data :=
       token_data_of v_access v_refresh (JNum expires_at) v_domain v_type
                     v_scope in
     os_makedirs ;;
     open_w ;;
     json_dump token_data ;;
     v <- dict_item token_data "access_token" ;;
     modify_self (with_access_token v) ;;
     v <- dict_item token_data "refresh_token" ;;
     modify_self (with_refresh_token v) ;;
     v <- dict_item token_data "expires_at" ;;
     modify_self (with_token_expires_at v) ;;
     v <- dict_item token_data "api_domain" ;;
     modify_self (with_api_domain_for_tokens v) ;;
     logger INFO "Tokens saved successfully")
    (fun e => logger ERROR "Failed to save tokens" ;; raise e).
Arguments _save_tokens : simpl never.

(** ** The callback listener *)

(** The [HTTPServer] object of [authorize_interactive], with the two
    attributes that [CallbackServer] sets and its [timeout] (seconds). *)
Record HTTPServer := {
  auth_code : json;
  auth_error : json;
  timeout : N }.

Definition seconds (n : N) : Q := inject_Z (Z.of_N n).
Definition milliseconds (n : N) : Q := Z.of_N n # 1000.

(** The blocking wait of a call: the clock moves on. *)
Definition elapse (d : Q) : M unit :=
  modify_sys (fun w => with_clock (clock w + d)%Q w).

(** [CallbackServer.do_GET] *)
Definition do_GET (r : request) (server : HTTPServer) : M HTTPServer :=
  if String.prefix "/callback" (req_path r) then
    match query_params r !! "code" with
    | Some c =>
        let server :=
          {| auth_code := JStr c; auth_error := auth_error server;
             timeout := timeout server |} in
        emit (SendResponse 200) ;;
        ret server
    | None =>
        match query_params r !! "error" with
        | Some e =>
            let server :=
              {| auth_code := auth_code server; auth_error := JStr e;
                 timeout := timeout server |} in
            emit (SendResponse 400) ;;
            ret server
        | None => ret server
        end
    end
  else
    emit (SendResponse 404) ;;
    ret server.

(** [server.handle_request()]: waits for one request for at most
    [server.timeout] seconds, counted from this call, and serves it; with
    no request in that time it returns having done nothing. A request due
    later stays due, that much sooner. A connection is taken to deliver
    its request at once. *)
Definition handle_request (server : HTTPServer) : M HTTPServer :=
  w <- get_sys ;;
  match incoming w with
  | [] => elapse (seconds (timeout server)) ;; ret server
  | a :: rest =>
      if (wait_ms a <? 1000 * timeout server)%N then
        elapse (milliseconds (wait_ms a)) ;;
        modify_sys (with_incoming rest) ;;
        do_GET (req a) server
      else
        elapse (seconds (timeout server)) ;;
        modify_sys
          (with_incoming
             ({| wait_ms := wait_ms a - 1000 * timeout server;
                 req := req a |} :: rest)) ;;
        ret server
  end.

(** [HTTPServer(('localhost', 8080), CallbackServer)] *)
Definition HTTPServer_bind (host : string) (port : Z) : M unit :=
  w <- get_sys ;;
  if bind_fails (io w) then raise OSError else emit (Bind host port).

(** ** Authorization and exchange *)

(** [ZohoAuth.get_authorization_url]: the URL is kept as the text before
    the query and the parameters handed to [urlencode]. *)
Definition get_authorization_url : M (string * list (string * string)) :=
  a <- get_self ;;
  let params :=
    [("scope", scope (cfg a)); ("client_id", client_id (cfg a));
     ("response_type", "code"); ("redirect_uri", redirect_uri (cfg a));
     ("access_type", "offline"); ("prompt", "consent")] in
  ret (accounts_domain (cfg a) +:+ "/oauth/v2/auth?", params).

(** [ZohoAuth._exchange_code_for_tokens] *)
Definition _exchange_code_for_tokens (code : json) : M bool :=
  try_except
    (a <- get_self ;;
     let token_url := accounts_domain (cfg a) +:+ "/oauth/v2/token" in
     let data :=
       [("grant_type", JStr "authorization_code");
        ("client_id", JStr (client_id (cfg a)));
        ("client_secret", JStr (client_secret (cfg a)));
        ("redirect_uri", JStr (redirect_uri (cfg a)));
        ("code", code)] in
     response <- requests_post token_url data ;;
     if (response.1.1 =? 200)%Z then
       tokens <- response_json response.2 ;;
       _save_tokens tokens ;;
       logger INFO "Successfully obtained access tokens" ;;
       ret true
     else
       logger ERROR "Token exchange failed" ;;
       ret false)
    (fun e => logger ERROR "Failed to exchange code for tokens" ;; ret false).
Arguments _exchange_code_for_tokens : simpl never.

(** [ZohoAuth.refresh_access_token] *)
Definition refresh_access_token : M bool :=
  a <- get_self ;;
  if negb (truthy (refresh_token a)) then
    logger ERROR "No refresh token available" ;;
    ret false
  else
    try_except
      (let token_url := accounts_domain (cfg a) +:+ "/oauth/v2/token" in
       let data :=
         [("grant_type", JStr "refresh_token");
          ("refresh_token", refresh_token a);
          ("client_id", JStr (client_id (cfg a)));
          ("client_secret", JStr (client_secret (cfg a)))] in
       response <- requests_post token_url data ;;
       if (response.1.1 =? 200)%Z then
         tokens <- response_json response.2 ;;
         _save_tokens tokens ;;
         logger INFO "Successfully refreshed access token" ;;
         ret true
       else
         logger ERROR "Token refresh failed" ;;
         ret false)
      (fun e => logger ERROR "Failed to refresh token" ;; ret false).
Arguments refresh_access_token : simpl never.

(** The [while] loop of [authorize_interactive]:
    [while time.time() - start_time < 300: server.handle_request(); if
    server.auth_code or server.auth_error: break]. *)
Fixpoint wait_for_callback (fuel : nat) (start_time : Q)
    (server : HTTPServer) : M HTTPServer :=
  match fuel with
  | O => hang
  | S fuel' =>
      t <- time_time ;;
      if Qltb (t - start_time) 300 then
        server <- handle_request server ;;
        if truthy (py_or (auth_code server) (auth_error server)) then
          ret server
        else wait_for_callback fuel' start_time server
      else ret server
  end.

Arguments wait_for_callback : simpl never.

(** Fuel that the loop cannot exhaust ([wait_for_callback_returns]): one
    round for each pending request, one for a silent round, one for the
    last test of the condition. *)
Definition enough_fuel (w : world) : nat := S (S (length (incoming w))).

(** ['='*60] *)
Definition rule : string :=
  "============================================================".

(** [ZohoAuth.authorize_interactive]. The source writes the line breaks
    of its banner as an escaped backslash followed by [n]. *)
Definition authorize_interactive : M bool :=
  try_except
    (auth_url <- get_authorization_url ;;
     print ("\n" +:+ rule) ;;
     print "ZOHO CRM AUTHENTICATION REQUIRED" ;;
     print rule ;;
     print "Opening your web browser for Zoho authentication..." ;;
     print "If the browser doesn't open automatically, please visit:" ;;
     print auth_url.1 ;;
     print (rule +:+ "\n") ;;
     HTTPServer_bind "localhost" 8080 ;;
     let server :=
       {| auth_code := JNull; auth_error := JNull; timeout := 300 |} in
     emit (OpenBrowser auth_url.1 auth_url.2) ;;
     print "Waiting for authorization (timeout: 5 minutes)..." ;;
     start_time <- time_time ;;
     w <- get_sys ;;
     server <- wait_for_callback (enough_fuel w) start_time server ;;
     if truthy (auth_error server) then
       logger ERROR "Authorization failed" ;;
       ret false
     else if negb (truthy (auth_code server)) then
       logger ERROR "Authorization timed out" ;;
       ret false
     else _exchange_code_for_tokens (auth_code server))
    (fun e => logger ERROR "Interactive authorization failed" ;; ret false).
Arguments authorize_interactive : simpl never.

(** ** Supervisor *)

(** [ZohoAuth.is_token_valid] *)
Definition is_token_valid : M bool :=
  a <- get_self ;;
  if negb (truthy (access_token a)) || negb (truthy (token_expires_at a))
  then ret false
  else
    t <- time_time ;;
    limit <- sub_number (token_expires_at a) 300 ;;
    ret (Qltb t limit).

(** [ZohoAuth.get_valid_access_token] *)
Definition get_valid_access_token : M json :=
  valid <- is_token_valid ;;
  if valid then
    a <- get_self ;; ret (access_token a)
  else
    logger INFO "Access token expired or invalid, attempting refresh..." ;;
    refreshed <- refresh_access_token ;;
    if refreshed then
      a <- get_self ;; ret (access_token a)
    else
      logger WARNING
        "Token refresh failed, interactive authorization required" ;;
      authorized <- authorize_interactive ;;
      if authorized then
        a <- get_self ;; ret (access_token a)
      else
        logger ERROR "Failed to obtain valid access token" ;;
        ret JNull.

(** [ZohoAuth.get_api_domain] *)
Definition get_api_domain : M json :=
  a <- get_self ;;
  ret (py_or (api_domain_for_tokens a) (JStr (api_domain (cfg a)))).

(** ** Revocation *)

(** [ZohoAuth.revoke_tokens] *)
Definition revoke_tokens : M bool :=
  try_except
    (a <- get_self ;;
     (if truthy (refresh_token a) then
        let revoke_url :=
          accounts_domain (cfg a) +:+ "/oauth/v2/token/revoke" in
        let data := [("token", refresh_token a)] in
        response <- requests_post revoke_url data ;;
        if negb (response.1.1 =? 200)%Z then
          logger WARNING "Token revocation warning"
        else ret tt
      else ret tt) ;;
     modify_self (with_access_token JNull) ;;
     modify_self (with_refresh_token JNull) ;;
     modify_self (with_token_expires_at JNull) ;;
     modify_self (with_api_domain_for_tokens JNull) ;;
     present <- os_path_exists ;;
     (if present then os_remove else ret tt) ;;
     logger INFO "Tokens revoked successfully" ;;
     ret true)
    (fun e => logger ERROR "Failed to revoke tokens" ;; ret false).

(** ** Notions used in the statements *)

(** A field is held when Python takes it for true ([if self.refresh_token],
    [not self.access_token]). *)
Definition held (v : json) : Prop := truthy v = true.

(** No fault on the path of a write. *)
Definition writable (f : faults) : bool :=
  negb (mkdir_fails f) && negb (open_w_fails f) && negb (dump_fails f).

(** The lifetime [_save_tokens] adds to the time of the save: the
    [expires_in] of the response, or 3600, when that is a number that
    converts to a float. *)
Definition lifetime_of (m : gmap string json) : option Q :=
  match as_number (default (JNum 3600) (m !! "expires_in")) with
  | Some q => if fits_float q then Some q else None
  | None => None
  end.

(** The exception of the addition when there is no such lifetime. *)
Definition lifetime_error (m : gmap string json) : exn :=
  match as_number (default (JNum 3600) (m !! "expires_in")) with
  | Some _ => OverflowError
  | None => TypeError
  end.

(** The state after a write of the record that failed. *)
Definition partly_written (s : state) : state :=
  {| self := self s;
     sys := left_by_dump (with_token_file (Text "") (sys s)) |}.

(** The record and the fields that a save of the response [m] by the
    object [a] produces, for the expiry [expires_at]. *)
Definition record_of (a : ZohoAuth) (m : gmap string json) (expires_at : Q)
  : gmap string json :=
  token_data_of
    (default JNull (m !! "access_token"))
    (default (refresh_token a) (m !! "refresh_token"))
    (JNum expires_at)
    (default (py_or (api_domain_for_tokens a) (JStr (api_domain (cfg a))))
       (m !! "api_domain"))
    (default (JStr "Bearer") (m !! "token_type"))
    (default (JStr (scope (cfg a))) (m !! "scope")).

Definition saved_self (a : ZohoAuth) (m : gmap string json) (expires_at : Q)
  : ZohoAuth :=
  {| cfg := cfg a;
     access_token := default JNull (m !! "access_token");
     refresh_token := default (refresh_token a) (m !! "refresh_token");
     token_expires_at := JNum expires_at;
     api_domain_for_tokens :=
       default (py_or (api_domain_for_tokens a) (JStr (api_domain (cfg a))))
         (m !! "api_domain") |}.

(** The state after a save that went through. *)
Definition saved (s : state) (m : gmap string json) (q : Q) : state :=
  let at_ := (clock (sys s) + q)%Q in
  {| self := saved_self (self s) m at_;
     sys :=
       with_logged (logged (sys s) ++ [(INFO, "Tokens saved successfully")])
         (with_token_file (Doc (JObj (record_of (self s) m at_)))
            (with_token_file (Text "") (sys s))) |}.

(** The field of a response, and of the durable record. *)
Definition field (tokens : json) (key : string) : option json :=
  match tokens with
  | JObj m => m !! key
  | _ => None
  end.

Definition persisted (w : world) (key : string) : option json :=
  match token_file w with
  | Doc j => field j key
  | _ => None
  end.

(** The state after an entry was added to the log. *)
Definition noted (l : level) (msg : string) (s : state) : state :=
  {| self := self s;
     sys := with_logged (logged (sys s) ++ [(l, msg)]) (sys s) |}.

(** The state after [requests.post (url, data)] consumed a reply. *)
Definition posted (url : string) (data : list (string * json)) (s : state)
  : state :=
  {| self := self s;
     sys := with_replies (tail (replies (sys s)))
              (with_trace (trace (sys s) ++ [HttpPost url data]) (sys s)) |}.

(** The request a refresh sends. *)
Definition refresh_request (a : ZohoAuth) : effect :=
  HttpPost (accounts_domain (cfg a) +:+ "/oauth/v2/token")
    [("grant_type", JStr "refresh_token");
     ("refresh_token", refresh_token a);
     ("client_id", JStr (client_id (cfg a)));
     ("client_secret", JStr (client_secret (cfg a)))].

(** The request an exchange of [code] sends. *)
Definition code_request (a : ZohoAuth) (code : json) : effect :=
  HttpPost (accounts_domain (cfg a) +:+ "/oauth/v2/token")
    [("grant_type", JStr "authorization_code");
     ("client_id", JStr (client_id (cfg a)));
     ("client_secret", JStr (client_secret (cfg a)));
     ("redirect_uri", JStr (redirect_uri (cfg a)));
     ("code", code)].

(** Requests of the refresh grant in a trace. *)
Definition is_refresh_post (e : effect) : bool :=
  match e with
  | HttpPost _ (("grant_type", JStr g) :: _) => String.eqb g "refresh_token"
  | _ => false
  end.

Definition refresh_posts (tr : list effect) : nat :=
  length (List.filter is_refresh_post tr).

(** A save of [tokens] in the world [w] goes through. *)
Definition save_succeeds (tokens : json) (w : world) : bool :=
  match tokens with
  | JObj m =>
      match lifetime_of m with
      | Some _ => writable (io w)
      | None => false
      end
  | _ => false
  end.

(** The next reply is a 200 with a JSON body whose save goes through. *)
Definition exchange_succeeds (w : world) : bool :=
  match replies w with
  | Response c _ (Some tokens) :: _ => (c =? 200)%Z && save_succeeds tokens w
  | _ => false
  end.

(** A refresh token is held and its exchange succeeds. *)
Definition refresh_succeeds (s : state) : bool :=
  truthy (refresh_token (self s)) && exchange_succeeds (sys s).

(** The next reply fails the exchange outright: no reply at all, a network
    error, or a status outside 200..299. *)
Definition reply_fails (w : world) : Prop :=
  match replies w with
  | [] | NetError :: _ => True
  | Response c _ _ :: _ => ~ (200 <= c < 300)%Z
  end.

(** The credentials in memory and on disk are those of [s]. *)
Definition same_credentials (s s' : state) : Prop :=
  self s' = self s /\ token_file (sys s') = token_file (sys s) /\
  written (sys s') = written (sys s).

(** The access token is missing or within 300 seconds of its expiry. *)
Definition stale (s : state) : Prop :=
  truthy (access_token (self s)) = false \/
  truthy (token_expires_at (self s)) = false \/
  exists q, as_number (token_expires_at (self s)) = Some q /\
            (q - 300 <= clock (sys s))%Q.

(** The access token is held and more than 300 seconds from its expiry. *)
Definition fresh (s : state) : Prop :=
  held (access_token (self s)) /\ held (token_expires_at (self s)) /\
  exists q, as_number (token_expires_at (self s)) = Some q /\
            (clock (sys s) < q - 300)%Q.

(** The state in which [get_valid_access_token] turns to the interactive
    flow, after a refresh that did not succeed. *)
Definition escalation_state (s : state) : state :=
  noted WARNING "Token refresh failed, interactive authorization required"
    (refresh_access_token
       (noted INFO "Access token expired or invalid, attempting refresh..."
          s)).2.

(** What the callback listener may change between [s] and [s']: the
    clock, the pending requests, and the trace, by responses only. *)
Definition listener_frame (s s' : state) : Prop :=
  self s' = self s /\ token_file (sys s') = token_file (sys s) /\
  written (sys s') = written (sys s) /\ printed (sys s') = printed (sys s) /\
  logged (sys s') = logged (sys s) /\ replies (sys s') = replies (sys s) /\
  io (sys s') = io (sys s) /\
  (clock (sys s) <= clock (sys s'))%Q /\
  exists new, trace (sys s') = trace (sys s) ++ new /\ refresh_posts new = 0.

(** The rounds of the waiting loop that the state can still need. *)
Definition rounds_needed (start_time : Q) (s : state) : nat :=
  if Qltb (clock (sys s) - start_time) 300
  then S (S (length (incoming (sys s))))
  else 1.

(** The attempts to obtain tokens that fail before any token is received:
    an exchange of either grant whose reply fails; an interactive flow
    whose first request, within the wait, is the provider's error
    redirect; and any interactive flow that ends on the report of such a
    redirect, [logger.error(f"Authorization failed: ...")]. *)
Inductive failed_attempt : M bool -> state -> Prop :=
| code_exchange_failed (code : json) (s : state) :
    reply_fails (sys s) ->
    failed_attempt (_exchange_code_for_tokens code) s
| refresh_failed (s : state) :
    reply_fails (sys s) ->
    failed_attempt refresh_access_token s
| error_redirect (s : state) (a : arrival) (rest : list arrival)
    (e : string) :
    incoming (sys s) = a :: rest ->
    (wait_ms a < 300000)%N ->
    String.prefix "/callback" (req_path (req a)) = true ->
    query_params (req a) !! "code" = None ->
    query_params (req a) !! "error" = Some e ->
    e <> "" ->
    failed_attempt authorize_interactive s
| error_resolved (s : state) :
    last (logged (sys (authorize_interactive s).2))
      = Some (ERROR, "Authorization failed") ->
    failed_attempt authorize_interactive s.

(** The object with every credential field set to [None]. *)
Definition cleared (a : ZohoAuth) : ZohoAuth :=
  {| cfg := cfg a; access_token := JNull; refresh_token := JNull;
     token_expires_at := JNull; api_domain_for_tokens := JNull |}.






(** ** Scenarios

    The concrete inputs at which the properties below are exercised. *)

Definition cfg0 : config :=
  {| client_id := "1000.CLIENT"; client_secret := "SECRET";
     redirect_uri := "http://localhost:8080/callback";
     scope := "ZohoCRM.modules.ALL,ZohoCRM.settings.ALL";
     token_file_path := ".zoho_tokens.json";
     api_domain := "https://www.zohoapis.com";
     accounts_domain := "https://accounts.zoho.com" |}.

Definition no_faults : faults :=
  {| mkdir_fails := false; open_r_fails := false; open_w_fails := false;
     dump_fails := false; dump_leaves := EmptyString; remove_fails := false;
     bind_fails := false |}.

(** A quiet world at time [t] whose token file is [f]. *)
Definition world_at (t : Q) (f : file) : world :=
  {| token_file := f; written := []; clock := t; logged := [];
     printed := []; trace := []; replies := []; incoming := [];
     io := no_faults |}.

(** The object holding access token [T1] and refresh token [R1], expiring
    at [t]. *)
Definition auth_until (t : Q) : ZohoAuth :=
  {| cfg := cfg0; access_token := JStr "T1"; refresh_token := JStr "R1";
     token_expires_at := JNum t; api_domain_for_tokens := JNull |}.

(** The record on disk for [auth_until t]. *)
Definition record_until (t : Q) : json :=
  JObj (token_data_of (JStr "T1") (JStr "R1") (JNum t)
          (JStr "https://www.zohoapis.com") (JStr "Bearer")
          (JStr "ZohoCRM.modules.ALL,ZohoCRM.settings.ALL")).

(** A refresh response that issues no new refresh token. *)
Definition response_T2 : json :=
  JObj (<["access_token" := JStr "T2"]> (<["expires_in" := JNum 3600]> ∅)).

(** A refresh response that issues the new refresh token [R2]. *)
Definition response_R2 : json :=
  JObj (<["access_token" := JStr "T2"]>
       (<["refresh_token" := JStr "R2"]>
       (<["expires_in" := JNum 3600]> ∅))).

(** A response without [expires_in]. *)
Definition response_T3 : json :=
  JObj (<["access_token" := JStr "T3"]> ∅).

(** Ten seconds past the expiry of the credentials on file. *)
Definition expired_state : state :=
  {| self := auth_until 1000; sys := world_at 1010 (Doc (record_until 1000)) |}.

(** The credentials of [auth_until 1000] in memory only: no token file
    yet. *)
Definition unsaved_state : state :=
  {| self := auth_until 1000; sys := world_at 1010 Missing |}.

(** The credentials of [auth_until t] on file and in memory at time
    [now], the provider about to give [rs], the listener about to receive
    [reqs]. *)
Definition state_with (t now : Q) (rs : list reply) (reqs : list arrival)
  : state :=
  {| self := auth_until t;
     sys := with_incoming reqs
              (with_replies rs (world_at now (Doc (record_until t)))) |}.

(** The provider's error redirect, and a request that is none of the
    listener's business. *)
Definition access_denied : request :=
  {| req_path := "/callback?error=access_denied";
     query_params := {["error" := "access_denied"]} |}.

Definition favicon : request :=
  {| req_path := "/favicon.ico"; query_params := ∅ |}.

(** The redirect that carries the authorization code [ABC]. *)
Definition code_ABC : request :=
  {| req_path := "/callback?code=ABC";
     query_params := {["code" := "ABC"]} |}.

(** A first grant: tokens [T1] and [R1] for an hour. *)
Definition response_T1 : json :=
  JObj (<["access_token" := JStr "T1"]>
       (<["refresh_token" := JStr "R1"]>
       (<["expires_in" := JNum 3600]> ∅))).

(** A first run: nothing on file, nothing in memory. *)
Definition first_run (now : Q) (rs : list reply) (reqs : list arrival)
  : state :=
  {| self := {| cfg := cfg0; access_token := JNull; refresh_token := JNull;
                token_expires_at := JNull; api_domain_for_tokens := JNull |};
     sys := with_incoming reqs (with_replies rs (world_at now Missing)) |}.

(** ** The requests that reach the listener *)

(** The request is a redirect that the listener acts on. *)
Definition qualifies (r : request) : bool :=
  String.prefix "/callback" (req_path r) &&
  match query_params r !! "code", query_params r !! "error" with
  | None, None => false
  | _, _ => true
  end.

Definition all_stray (reqs : list arrival) : Prop :=
  Forall (fun a => qualifies (req a) = false) reqs.

(** The page that the flow opens in the browser. *)
Definition authorization_page (a : ZohoAuth) : effect :=
  OpenBrowser (accounts_domain (cfg a) +:+ "/oauth/v2/auth?")
    [("scope", scope (cfg a)); ("client_id", client_id (cfg a));
     ("response_type", "code"); ("redirect_uri", redirect_uri (cfg a));
     ("access_type", "offline"); ("prompt", "consent")].

(** What a listener that only meets stray requests may change. *)
Definition stray_frame (s s' : state) : Prop :=
  same_credentials s s' /\ logged (sys s') = logged (sys s) /\
  replies (sys s') = replies (sys s) /\
  (clock (sys s) <= clock (sys s'))%Q /\
  all_stray (incoming (sys s')) /\
  exists n, trace (sys s') = trace (sys s) ++ repeat (SendResponse 404) n.

(** * The callers in [src/server.py] *)

(** Exceptions of the callers: those of [zoho_auth.py], and the classes
    that [server.py] raises or tells apart. [RequestError] is a
    [requests.exceptions.RequestException] other than a time-out, which
    since requests 2.27 includes a body that is not JSON. *)
Inductive error :=
| Builtin (e : exn)
| ValueError (msg : string)
| IndexError
| RequestTimeout
| RequestError
| PlainException (msg : string).

(** An f-string, kept as its pieces: fixed text, and the values that
    [str()] would render. A plain string is one [Lit]. *)
Inductive piece :=
| Lit (s : string)
| Shown (j : json)
| ShownInt (z : Z)
| ShownError (e : error).

Definition text : Type := list piece.

(** The values that the tools build and return. *)
Inductive pyval :=
| PNone
| PBool (b : bool)
| PInt (z : Z)
| PText (t : text)
| PJson (j : json)
| PList (l : list pyval)
| PDict (kvs : list (string * pyval)).

Definition PStr (s : string) : pyval := PText [Lit s].

(** [requests.get/post/put/delete(url, headers=, json=, params=, timeout=)] *)
Record api_call := {
  verb : string;
  url : text;
  headers : list (string * text);
  json_body : pyval;
  params : pyval;
  timeout_s : Z }.

(** What a request to the API meets. *)
Inductive api_reply :=
| ApiTimeout
| ApiUnreachable
| ApiResponse (status_code : Z) (body_text : string)
    (content_type : option string) (body : option json).

(** The server process: the module-level [auth], the world of
    [zoho_auth.py], the environment variables, and the API beyond. *)
Record process := {
  auth : option ZohoAuth;
  host : world;
  environ : gmap string string;
  api_replies : list api_reply;
  api_calls : list api_call }.

Inductive result (A : Type) :=
| Done (a : A)
| Raised (e : error)
| Stuck.
Arguments Done {A} a.
Arguments Raised {A} e.
Arguments Stuck {A}.

Definition R (S A : Type) : Type := S -> result A * S.

Definition ret_ {S A} (a : A) : R S A := fun s => (Done a, s).
Definition bind_ {S A B} (c : R S A) (k : A -> R S B) : R S B :=
  fun s =>
    match c s with
    | (Done a, s') => k a s'
    | (Raised e, s') => (Raised e, s')
    | (Stuck, s') => (Stuck, s')
    end.
Definition raise_ {S A} (e : error) : R S A := fun s => (Raised e, s).
Definition try_ {S A} (body : R S A) (handler : error -> R S A) : R S A :=
  fun s =>
    match body s with
    | (Raised e, s') => handler e s'
    | r => r
    end.
Definition get_ {S} : R S S := fun s => (Done s, s).

Declare Scope srv_scope.
Notation "x <- c ;; k" := (bind_ c (fun x => k))
  (at level 100, c at next level, right associativity) : srv_scope.
Notation "c ;; k" := (bind_ c (fun _ => k))
  (at level 100, right associativity) : srv_scope.

Section Server.
Local Open Scope srv_scope.

(** [int(text)] of the interpreter: [None] when it raises [ValueError]. *)
Variable py_int : string -> option Z.

(** The largest time-out, in seconds, that the libraries below take: the
    bound depends on the platform. *)
Variable timeout_limit : Z.

(** A method of [zoho_auth.py] run from the callers. *)
Definition lift {A} (c : M A) : R state A :=
  fun s =>
    match c s with
    | (Ret a, s') => (Done a, s')
    | (Exc e, s') => (Raised (Builtin e), s')
    | (Hang, s') => (Stuck, s')
    end.

(** [ZohoAuth.get_headers] *)
Definition get_headers : R state (list (string * text)) :=
  token <- lift get_valid_access_token ;;
  if negb (truthy token) then
    raise_ (PlainException "No valid access token available")
  else
    ret_ [("Authorization", [Lit "Zoho-oauthtoken "; Shown token]);
          ("Content-Type", [Lit "application/json"])].

(** [auth.method(...)]: the method runs on the one object that the module
    holds; on [None] the attribute is missing. *)
Definition on_auth {A} (method : R state A) : R process A :=
  fun p =>
    match auth p with
    | None => (Raised (Builtin AttributeError), p)
    | Some a =>
        let (r, s') := method {| self := a; sys := host p |} in
        (r, {| auth := Some (self s'); host := sys s';
               environ := environ p; api_replies := api_replies p;
               api_calls := api_calls p |})
    end.

(** [os.getenv(name, default)] *)
Definition getenv (name dflt : string) : R process string :=
  fun p => (Done (default dflt (environ p !! name)), p).

(** [logger.error], [logger.info] of [server.py] *)
Definition log_ (l : level) (msg : string) : R process unit :=
  fun p =>
    (Done tt,
     {| auth := auth p;
        host := with_logged (logged (host p) ++ [(l, msg)]) (host p);
        environ := environ p; api_replies := api_replies p;
        api_calls := api_calls p |}).

(** [not value] for the result of [os.getenv(name)]. *)
Definition unset (v : option string) : bool :=
  match v with
  | None | Some EmptyString => true
  | Some (String _ _) => false
  end.

(** [init_auth] *)
Definition init_auth : R process unit :=
  p <- get_ ;;
  let client_id := environ p !! "ZOHO_CLIENT_ID" in
  let client_secret := environ p !! "ZOHO_CLIENT_SECRET" in
  if unset client_id || unset client_secret then
    raise_ (ValueError
      "ZOHO_CLIENT_ID and ZOHO_CLIENT_SECRET must be set in environment variables")
  else
    redirect_uri <- getenv "ZOHO_REDIRECT_URI" "http://localhost:8080/callback" ;;
    scope <- getenv "ZOHO_SCOPE"
               "ZohoCRM.modules.ALL,ZohoCRM.settings.ALL,ZohoCRM.users.ALL" ;;
    token_file_path <- getenv "TOKEN_FILE_PATH" ".zoho_tokens.json" ;;
    api_domain <- getenv "ZOHO_API_DOMAIN" "https://www.zohoapis.com" ;;
    accounts_domain <- getenv "ZOHO_ACCOUNTS_DOMAIN"
                         "https://accounts.zoho.com" ;;
    let c :=
      {| client_id := default "" client_id;
         client_secret := default "" client_secret;
         redirect_uri := redirect_uri; scope := scope;
         token_file_path := token_file_path; api_domain := api_domain;
         accounts_domain := accounts_domain |} in
    fun p =>
      match __init__ c (host p) with
      | (Ret _, s') =>
          (Done tt,
           {| auth := Some (self s'); host := sys s'; environ := environ p;
              api_replies := api_replies p; api_calls := api_calls p |})
      | (Exc e, s') =>
          (Raised (Builtin e),
           {| auth := auth p; host := sys s'; environ := environ p;
              api_replies := api_replies p; api_calls := api_calls p |})
      | (Hang, s') =>
          (Stuck,
           {| auth := auth p; host := sys s'; environ := environ p;
              api_replies := api_replies p; api_calls := api_calls p |})
      end.

(** [not auth] *)
Definition no_auth (p : process) : bool :=
  match auth p with None => true | Some _ => false end.

(** [require_auth(func)]: the wrapper around a tool named [name]. *)
Definition require_auth {A} (name : string) (func : R process A)
  : R process A :=
  p <- get_ ;;
  (if no_auth p then init_auth else ret_ tt) ;;
  try_ func
    (fun e => log_ ERROR ("Error in " +:+ name) ;; raise_ e).


(** [requests.get], [.post], [.put], [.delete]: one request to the API.
    The time-out is checked before anything is sent: one that is not
    positive is a [ValueError], one beyond the limit an [OverflowError],
    and neither is an exception of [requests]. *)
Definition requests_request (c : api_call)
  : R process (Z * string * option string * option json) :=
  fun p =>
    if (timeout_s c <=? 0)%Z then
      (Raised (ValueError
         "the timeout cannot be set to a value less than or equal to 0"), p)
    else if (timeout_limit <? timeout_s c)%Z then
      (Raised (Builtin OverflowError), p)
    else
      let p' :=
        {| auth := auth p; host := host p; environ := environ p;
           api_replies := tail (api_replies p);
           api_calls := api_calls p ++ [c] |} in
      match head (api_replies p) with
      | Some (ApiResponse code t ct b) => (Done (code, t, ct, b), p')
      | Some ApiTimeout => (Raised RequestTimeout, p')
      | Some ApiUnreachable | None => (Raised RequestError, p')
      end.

(** [response.json()] *)
Definition json_of {S} (body : option json) : R S json :=
  match body with
  | Some j => ret_ j
  | None => raise_ RequestError
  end.

Definition is_ok (code : Z) : bool :=
  (code =? 200)%Z || (code =? 201)%Z || (code =? 202)%Z.

(** [make_api_request] *)
Definition make_api_request (endpoint method : string) (data params : pyval)
  : R process pyval :=
  p <- get_ ;;
  if no_auth p then raise_ (PlainException "Authentication not initialized")
  else
    headers <- on_auth get_headers ;;
    api_domain <- on_auth (lift get_api_domain) ;;
    api_version <- getenv "ZOHO_API_VERSION" "v2" ;;
    let url :=
      [Shown api_domain; Lit ("/crm/" +:+ api_version +:+ "/" +:+ endpoint)] in
    timeout_text <- getenv "REQUEST_TIMEOUT" "30" ;;
    timeout <- match py_int timeout_text with
               | Some t => ret_ t
               | None => raise_ (ValueError "invalid literal for int()")
               end ;;
    try_
      (response <-
         (if String.eqb method "GET" then
            requests_request {| verb := "GET"; url := url; headers := headers;
                       json_body := PNone; params := params;
                       timeout_s := timeout |}
          else if String.eqb method "POST" then
            requests_request {| verb := "POST"; url := url; headers := headers;
                       json_body := data; params := params;
                       timeout_s := timeout |}
          else if String.eqb method "PUT" then
            requests_request {| verb := "PUT"; url := url; headers := headers;
                       json_body := data; params := params;
                       timeout_s := timeout |}
          else if String.eqb method "DELETE" then
            requests_request {| verb := "DELETE"; url := url; headers := headers;
                       json_body := PNone; params := params;
                       timeout_s := timeout |}
          else raise_ (ValueError ("Unsupported HTTP method: " +:+ method))) ;;
       let '(code, body_text, ct, body) := response in
       if is_ok code then
         j <- json_of body ;;
         ret_ (PDict [("status", PStr "success"); ("status_code", PInt code);
                      ("data", PJson j)])
       else
         err <- (if String.prefix "application/json" (default "" ct)
                 then j <- json_of body ;; ret_ (PJson j)
                 else ret_ (PStr body_text)) ;;
         ret_ (PDict [("status", PStr "error"); ("status_code", PInt code);
                      ("message", PStr body_text); ("error", err)]))
      (fun e =>
         match e with
         | RequestTimeout =>
             ret_ (PDict [("status", PStr "error");
                          ("message", PStr "Request timed out");
                          ("error", PStr "timeout")])
         | RequestError =>
             ret_ (PDict [("status", PStr "error");
                          ("message",
                           PText [Lit "Request failed: "; ShownError e]);
                          ("error", PText [ShownError e])])
         | _ =>
             ret_ (PDict [("status", PStr "error");
                          ("message",
                           PText [Lit "Unexpected error: "; ShownError e]);
                          ("error", PText [ShownError e])])
         end).

(** *** Operations on received values *)

(** [j.get(key, default)] *)
Definition jget {S} (j : json) (key : string) (dflt : json) : R S json :=
  match j with
  | JObj kvs => ret_ (default dflt (kvs !! key))
  | _ => raise_ (Builtin AttributeError)
  end.

(** [j.get(key, default)] with a default that the tool supplies. *)
Definition jget_or {S} (j : json) (key : string) (dflt : pyval)
  : R S pyval :=
  match j with
  | JObj kvs => ret_ (from_option PJson dflt (kvs !! key))
  | _ => raise_ (Builtin AttributeError)
  end.

(** [j[0]] *)
Definition index0 {S} (j : json) : R S json :=
  match j with
  | JArr (x :: _) => ret_ x
  | JArr [] | JStr EmptyString => raise_ IndexError
  | JStr (String c _) => ret_ (JStr (String c EmptyString))
  | JObj _ => raise_ (Builtin KeyError)
  | JNull | JBool _ | JNum _ => raise_ (Builtin TypeError)
  end.

(** [len(j)] *)
Definition len {S} (j : json) : R S Z :=
  match j with
  | JArr xs => ret_ (Z.of_nat (length xs))
  | JObj kvs => ret_ (Z.of_nat (size kvs))
  | JStr s => ret_ (Z.of_nat (String.length s))
  | JNull | JBool _ | JNum _ => raise_ (Builtin TypeError)
  end.

(** The entry of a dictionary that a tool built. *)
Definition entry (d : pyval) (key : string) : option pyval :=
  match d with
  | PDict kvs => snd <$> List.find (fun kv => String.eqb kv.1 key) kvs
  | _ => None
  end.

(** [d[key]] *)
Definition item {S} (d : pyval) (key : string) : R S pyval :=
  match d with
  | PDict _ =>
      match entry d key with
      | Some v => ret_ v
      | None => raise_ (Builtin KeyError)
      end
  | _ => raise_ (Builtin TypeError)
  end.

(** [v == 'literal'] *)
Definition is_text (v : pyval) (s : string) : bool :=
  match v with
  | PText [Lit x] => String.eqb x s
  | _ => false
  end.

(** [result['data']], the parsed body that [make_api_request] put there:
    the tools call [.get] on nothing else. *)
Definition parsed_data {S} (result : pyval) : R S json :=
  data <- item result "data" ;;
  match data with
  | PJson j => ret_ j
  | _ => raise_ (Builtin AttributeError)
  end.

(** *** Tools *)


(** [revoke_authentication] *)
Definition revoke_authentication : R process pyval :=
  require_auth "revoke_authentication"
    (try_
       (success <- on_auth (lift revoke_tokens) ;;
        if success : bool then
          ret_ (PDict [("status", PStr "success");
                       ("message", PStr "Authentication revoked successfully")])
        else
          ret_ (PDict [("status", PStr "error");
                       ("message", PStr "Failed to revoke authentication")]))
       (fun e =>
          log_ ERROR "Token revocation error" ;;
          ret_ (PDict
            [("status", PStr "error");
             ("message",
              PText [Lit "Error revoking authentication: "; ShownError e])]))).


(** [get_record_by_id] *)
Definition get_record_by_id (module_name record_id : string)
  : R process pyval :=
  require_auth "get_record_by_id"
    (result <- make_api_request (module_name +:+ "/" +:+ record_id) "GET"
                 PNone PNone ;;
     status <- item result "status" ;;
     if is_text status "success" then
       data <- parsed_data result ;;
       records <- jget data "data" (JArr []) ;;
       record <- (if truthy records then r <- index0 records ;; ret_ (PJson r)
                  else ret_ PNone) ;;
       ret_ (PDict
         [("status", PStr "success"); ("module", PStr module_name);
          ("record_id", PStr record_id); ("record", record)])
     else ret_ result).

(** [bulk_create_records] *)
Definition bulk_create_records (module_name : string)
    (records_data : list pyval) (trigger_workflow : bool)
  : R process pyval :=
  require_auth "bulk_create_records"
    (if (100 <? Z.of_nat (length records_data))%Z then
       ret_ (PDict
         [("status", PStr "error");
          ("message",
           PStr "Maximum 100 records allowed per bulk operation")])
     else
       let data := PDict [("data", PList records_data)] in
       let params :=
         if negb trigger_workflow then PDict [("trigger", PStr "workflow")]
         else PDict [] in
       result <- make_api_request module_name "POST" data params ;;
       status <- item result "status" ;;
       if is_text status "success" then
         data <- parsed_data result ;;
         created_records <- jget data "data" (JArr []) ;;
         n <- len created_records ;;
         ret_ (PDict
           [("status", PStr "success"); ("module", PStr module_name);
            ("message",
             PText [ShownInt n; Lit " records created successfully"]);
            ("created_records", PJson created_records)])
       else ret_ result).

End Server.

(** ** Notions used in the statements about the callers *)

(** The process after a request [c] to the API. *)
Definition sent (c : api_call) (p : process) : process :=
  {| auth := auth p; host := host p; environ := environ p;
     api_replies := tail (api_replies p);
     api_calls := api_calls p ++ [c] |}.

(** The ['status'] of a result is one of the two that the tools use. *)
Definition reported (r : pyval) : Prop :=
  entry r "status" = Some (PStr "success") \/
  entry r "status" = Some (PStr "error").

(** A computation that ends, and leaves the state as it was. *)
Definition stateless {S A} (c : R S A) : Prop :=
  forall s, (c s).2 = s /\ (c s).1 <> Stuck.

(** The process after a method of [auth] left the state [s1]. *)
Definition synced (s1 : state) (p : process) : process :=
  {| auth := Some (self s1); host := sys s1; environ := environ p;
     api_replies := api_replies p; api_calls := api_calls p |}.


(** Both the client id and the client secret are set and not empty. *)
Definition configured (env : gmap string string) : bool :=
  negb (unset (env !! "ZOHO_CLIENT_ID") ||
        unset (env !! "ZOHO_CLIENT_SECRET")).

(** ** Scenarios of the callers *)

(** A reading of [int(text)] for texts of decimal digits; the interpreter
    accepts more (signs, blanks, underscores). *)
Definition digit (c : Ascii.ascii) : option Z :=
  let n := (Z.of_N (Ascii.N_of_ascii c) - 48)%Z in
  if (0 <=? n)%Z && (n <=? 9)%Z then Some n else None.

Fixpoint digits (acc : Z) (s : string) : option Z :=
  match s with
  | EmptyString => Some acc
  | String c rest =>
      match digit c with
      | Some d => digits (10 * acc + d) rest
      | None => None
      end
  end.

Definition decimal (s : string) : option Z :=
  match s with
  | EmptyString => None
  | _ => digits 0 s
  end.

(** A time-out limit of one day. *)
Definition a_day : Z := 86400.

(** The world [w] with the faults [f]. *)
Definition faulty (f : faults) (w : world) : world :=
  {| token_file := token_file w; written := written w; clock := clock w;
     logged := logged w; printed := printed w; trace := trace w;
     replies := replies w; incoming := incoming w; io := f |}.

Definition disk_full : faults :=
  {| mkdir_fails := false; open_r_fails := false; open_w_fails := false;
     dump_fails := true; dump_leaves := "{"; remove_fails := false;
     bind_fails := false |}.

Definition port_taken : faults :=
  {| mkdir_fails := false; open_r_fails := false; open_w_fails := false;
     dump_fails := false; dump_leaves := EmptyString; remove_fails := false;
     bind_fails := true |}.

(** A token for two minutes, and the provider's report of an error under
    status 200. *)
Definition short_lived : gmap string json :=
  <["access_token" := JStr "T4"]> (<["expires_in" := JNum 120]> ∅).


Definition grant_T2 : gmap string json :=
  <["access_token" := JStr "T2"]> (<["expires_in" := JNum 3600]> ∅).

(** A server process with an empty environment that has made no request
    yet. *)
Definition crm (a : option ZohoAuth) (w : world) (rs : list api_reply)
  : process :=
  {| auth := a; host := w; environ := ∅; api_replies := rs;
     api_calls := [] |}.

(** Two leads, as the API lists them. *)
Definition two_leads : gmap string json :=
  <["data" := JArr [JObj (<["id" := JStr "1"]> ∅);
                    JObj (<["id" := JStr "2"]> ∅)]]> ∅.

(** The process that holds [T1] until 2000, at time 1010, about to
    receive the two leads. *)
Definition crm_ready : process :=
  crm (Some (auth_until 2000)) (world_at 1010 (Doc (record_until 2000)))
    [ApiResponse 200 "" (Some "application/json") (Some (JObj two_leads))].

(** * Properties *)

(** ** The token store *)

Lemma token_data_of_lookup va vr ve vd vt vs :
  let d := token_data_of va vr ve vd vt vs in
  d !! "access_token" = Some va /\ d !! "refresh_token" = Some vr /\
  d !! "expires_at" = Some ve /\ d !! "api_domain" = Some vd /\
  d !! "token_type" = Some vt /\ d !! "scope" = Some vs.
Proof. unfold token_data_of. by simplify_map_eq. Qed.

Lemma record_of_lookup a m e :
  let d := record_of a m e in
  d !! "access_token" = Some (access_token (saved_self a m e)) /\
  d !! "refresh_token" = Some (refresh_token (saved_self a m e)) /\
  d !! "expires_at" = Some (token_expires_at (saved_self a m e)) /\
  d !! "api_domain" = Some (api_domain_for_tokens (saved_self a m e)).
Proof.
  pose proof (token_data_of_lookup
    (default JNull (m !! "access_token"))
    (default (refresh_token a) (m !! "refresh_token"))
    (JNum e)
    (default (py_or (api_domain_for_tokens a) (JStr (api_domain (cfg a))))
       (m !! "api_domain"))
    (default (JStr "Bearer") (m !! "token_type"))
    (default (JStr (scope (cfg a))) (m !! "scope"))) as H.
  simpl in *. unfold record_of. tauto.
Qed.

(** What [_save_tokens] does, case by case. *)
Lemma _save_tokens_cases (tokens : json) (s : state) :
  _save_tokens tokens s =
  match tokens with
  | JObj m =>
      match lifetime_of m with
      | Some q =>
          if mkdir_fails (io (sys s)) then
            (Exc OSError, noted ERROR "Failed to save tokens" s)
          else if open_w_fails (io (sys s)) then
            (Exc OSError, noted ERROR "Failed to save tokens" s)
          else if dump_fails (io (sys s)) then
            (Exc OSError,
             noted ERROR "Failed to save tokens" (partly_written s))
          else (Ret tt, saved s m q)
      | None =>
          (Exc (lifetime_error m), noted ERROR "Failed to save tokens" s)
      end
  | _ => (Exc AttributeError, noted ERROR "Failed to save tokens" s)
  end.
Proof.
  destruct tokens; try reflexivity.
  unfold _save_tokens, try_except, bind, float_add, lifetime_of,
    lifetime_error. simpl.
  destruct (as_number (default (JNum 3600) (kvs !! "expires_in"))) as [q|];
    simpl; [|reflexivity].
  destruct (fits_float q); simpl; [|reflexivity].
  unfold os_makedirs, open_w, json_dump. simpl.
  destruct (mkdir_fails (io (sys s))); simpl; [reflexivity|].
  destruct (open_w_fails (io (sys s))); simpl; [reflexivity|].
  destruct (dump_fails (io (sys s))); simpl; [reflexivity|].
  unfold dict_item.
  destruct (record_of_lookup (self s) kvs (clock (sys s) + q))
    as (H1 & H2 & H3 & H4).
  unfold record_of in *. rewrite H1. simpl. rewrite H2. simpl.
  rewrite H3. simpl. rewrite H4. simpl. reflexivity.
Qed.

Lemma _save_tokens_returns (tokens : json) (s s' : state) :
  _save_tokens tokens s = (Ret tt, s') ->
  exists m q,
    tokens = JObj m /\ lifetime_of m = Some q /\
    writable (io (sys s)) = true /\ s' = saved s m q.
Proof.
  rewrite _save_tokens_cases. unfold writable.
  destruct tokens; try discriminate.
  destruct (lifetime_of kvs) as [q|] eqn:E; try discriminate.
  destruct (mkdir_fails (io (sys s))), (open_w_fails (io (sys s))),
    (dump_fails (io (sys s)));
    try discriminate.
  intros [= <-]. by exists kvs, q.
Qed.

Lemma _save_tokens_raises (tokens : json) (s s' : state) (r : outcome unit) :
  _save_tokens tokens s = (r, s') -> r <> Ret tt ->
  (exists e, r = Exc e) /\ self s' = self s /\
  (token_file (sys s') = token_file (sys s) \/
   exists t, token_file (sys s') = Text t).
Proof.
  rewrite _save_tokens_cases.
  destruct tokens;
    try (intros [= <- <-] _; simpl; split; [by eexists | by auto]).
  destruct (lifetime_of kvs) as [q|];
    [|intros [= <- <-] _; simpl; split; [by eexists | by auto]].
  destruct (mkdir_fails (io (sys s))), (open_w_fails (io (sys s))),
    (dump_fails (io (sys s)));
    intros [= <- <-] Hr; simpl;
    first [ by destruct Hr | split; [by eexists | by auto] | idtac ].
  all: split; [by eexists|]; split; [done|]; right;
    unfold left_by_dump; simpl;
    destruct (dump_leaves (io (sys s))); by eexists.
Qed.

Lemma persisted_saved s m q :
  persisted (sys (saved s m q)) "access_token"
    = Some (access_token (self (saved s m q))) /\
  persisted (sys (saved s m q)) "refresh_token"
    = Some (refresh_token (self (saved s m q))) /\
  persisted (sys (saved s m q)) "expires_at"
    = Some (token_expires_at (self (saved s m q))) /\
  persisted (sys (saved s m q)) "api_domain"
    = Some (api_domain_for_tokens (self (saved s m q))).
Proof. apply record_of_lookup. Qed.

(** C3. A save completes exactly when the response is an object whose
    lifetime can be added to the time and the file can be written. A
    response without [refresh_token] leaves the refresh token held before
    the save in place, in memory (whatever the outcome of the save) and
    in the record that a completed save wrote; a response with the field
    puts its value in both. *)
Theorem save_refresh_token (tokens : json) (s s' : state) (r : outcome unit) :
  _save_tokens tokens s = (r, s') ->
  (r = Ret tt <-> save_succeeds tokens (sys s) = true) /\
  (field tokens "refresh_token" = None ->
     refresh_token (self s') = refresh_token (self s) /\
     (r = Ret tt ->
      persisted (sys s') "refresh_token" = Some (refresh_token (self s)))) /\
  (forall v, field tokens "refresh_token" = Some v -> r = Ret tt ->
     refresh_token (self s') = v /\
     persisted (sys s') "refresh_token" = Some v).
Proof.
  intros Hrun. split; [|split].
  - pose proof Hrun as Hcase. rewrite _save_tokens_cases in Hcase.
    unfold save_succeeds, writable.
    destruct tokens; try (injection Hcase as <- _; by split).
    destruct (lifetime_of kvs); [|injection Hcase as <- _; by split].
    destruct (mkdir_fails (io (sys s))), (open_w_fails (io (sys s))),
      (dump_fails (io (sys s)));
      injection Hcase as <- _; by split.
  - intros Hnone. destruct r as [[]| |].
    + apply _save_tokens_returns in Hrun as (m & q & -> & _ & _ & ->).
      destruct (persisted_saved s m q) as (_ & -> & _).
      simpl in *. rewrite Hnone. done.
    + apply _save_tokens_raises in Hrun as (_ & -> & _); done.
    + apply _save_tokens_raises in Hrun as (_ & -> & _); done.
  - intros v Hv ->.
    apply _save_tokens_returns in Hrun as (m & q & -> & _ & _ & ->).
    destruct (persisted_saved s m q) as (_ & -> & _).
    simpl in *. rewrite Hv. done.
Qed.

Lemma save_refresh_token_witness :
  ((_save_tokens response_T2 unsaved_state).1 = Ret tt /\
   refresh_token (self (_save_tokens response_T2 unsaved_state).2)
     = JStr "R1" /\
   persisted (sys (_save_tokens response_T2 unsaved_state).2) "refresh_token"
     = Some (JStr "R1")) /\
  ((_save_tokens response_R2 expired_state).1 = Ret tt /\
   refresh_token (self (_save_tokens response_R2 expired_state).2)
     = JStr "R2" /\
   persisted (sys (_save_tokens response_R2 expired_state).2) "refresh_token"
     = Some (JStr "R2")).
Proof.
  split.
  - destruct (save_refresh_token response_T2 unsaved_state
                (_save_tokens response_T2 unsaved_state).2
                (_save_tokens response_T2 unsaved_state).1 eq_refl)
      as (Hdone & Hkeep & _).
    assert ((_save_tokens response_T2 unsaved_state).1 = Ret tt) as Hr
      by (apply Hdone; reflexivity).
    destruct (Hkeep eq_refl) as [H1 H2].
    split; [exact Hr|]. split; [exact H1 | exact (H2 Hr)].
  - destruct (save_refresh_token response_R2 expired_state
                (_save_tokens response_R2 expired_state).2
                (_save_tokens response_R2 expired_state).1 eq_refl)
      as (Hdone & _ & Hnew).
    assert ((_save_tokens response_R2 expired_state).1 = Ret tt) as Hr
      by (apply Hdone; reflexivity).
    destruct (Hnew (JStr "R2") eq_refl Hr) as [H1 H2].
    split; [exact Hr|]. split; [exact H1 | exact H2].
Defined.

(** C4. With [expires_in] a number [q] in the response, a completed save
    stores the time of the save plus [q], in memory and in the record; a
    save that raises leaves the expiry as it was. The stored value depends
    on the clock and the response only. *)
Theorem save_expires_at (tokens : json) (s s' : state) (r : outcome unit)
    (q : Q) :
  field tokens "expires_in" = Some (JNum q) -> (0 < q)%Q ->
  _save_tokens tokens s = (r, s') ->
  (r = Ret tt ->
     token_expires_at (self s') = JNum (clock (sys s) + q) /\
     persisted (sys s') "expires_at" = Some (JNum (clock (sys s) + q))) /\
  (r <> Ret tt -> token_expires_at (self s') = token_expires_at (self s)).
Proof.
  intros Hq _ Hrun. split.
  - intros ->.
    apply _save_tokens_returns in Hrun as (m & q' & -> & Hl & _ & ->).
    destruct (persisted_saved s m q') as (_ & _ & -> & _).
    unfold lifetime_of in Hl. simpl in *. rewrite Hq in Hl. simpl in Hl.
    destruct (fits_float q); [|discriminate]. injection Hl as <-. done.
  - intros Hr. apply _save_tokens_raises in Hrun as (_ & -> & _); done.
Qed.

Lemma save_expires_at_witness :
  token_expires_at (self (_save_tokens response_T2 expired_state).2)
    = JNum (1010 + 3600).
Proof.
  assert (0 < 3600)%Q as Hpos by reflexivity.
  destruct (save_expires_at response_T2 expired_state
              (_save_tokens response_T2 expired_state).2 (Ret tt) 3600
              eq_refl Hpos eq_refl) as [H _].
  exact (proj1 (H eq_refl)).
Defined.

(** C10. With no [expires_in] in the response and no fault on the write,
    the save completes and stores the time of the save plus 3600. *)
Theorem save_default_lifetime (m : gmap string json) (s : state) :
  m !! "expires_in" = None -> writable (io (sys s)) = true ->
  exists s',
    _save_tokens (JObj m) s = (Ret tt, s') /\
    token_expires_at (self s') = JNum (clock (sys s) + 3600) /\
    persisted (sys s') "expires_at" = Some (JNum (clock (sys s) + 3600)).
Proof.
  intros Hm Hw. exists (saved s m 3600).
  destruct (persisted_saved s m 3600) as (_ & _ & -> & _).
  split; [|done].
  rewrite _save_tokens_cases. unfold lifetime_of. rewrite Hm. simpl.
  change (fits_float 3600) with true. simpl.
  unfold writable in Hw.
  destruct (mkdir_fails (io (sys s))), (open_w_fails (io (sys s))),
    (dump_fails (io (sys s))); done.
Qed.

Lemma save_default_lifetime_witness :
  exists s',
    _save_tokens response_T3 expired_state = (Ret tt, s') /\
    token_expires_at (self s') = JNum (1010 + 3600) /\
    persisted (sys s') "expires_at" = Some (JNum (1010 + 3600)).
Proof.
  exact (save_default_lifetime (<["access_token" := JStr "T3"]> ∅)
           expired_state eq_refl eq_refl).
Defined.

(** C9, amended. A completed save rewrites the token file in place: it
    first empties the file and then writes the whole record, with nothing
    else in between, and leaves the file holding that record, field for
    field the credentials now in memory. *)
Theorem save_writes_in_place (tokens : json) (s s' : state) :
  _save_tokens tokens s = (Ret tt, s') ->
  exists rec,
    written (sys s') = written (sys s) ++ [Text ""; Doc (JObj rec)] /\
    token_file (sys s') = Doc (JObj rec) /\
    rec !! "access_token" = Some (access_token (self s')) /\
    rec !! "refresh_token" = Some (refresh_token (self s')) /\
    rec !! "expires_at" = Some (token_expires_at (self s')) /\
    rec !! "api_domain" = Some (api_domain_for_tokens (self s')).
Proof.
  intros Hrun.
  apply _save_tokens_returns in Hrun as (m & q & -> & _ & _ & ->).
  exists (record_of (self s) m (clock (sys s) + q)).
  split; [|split; [done | apply record_of_lookup]].
  simpl. by rewrite <- app_assoc.
Qed.

Lemma save_writes_in_place_witness :
  exists rec,
    written (sys (_save_tokens response_T2 expired_state).2)
      = [Text ""; Doc (JObj rec)] /\
    rec !! "access_token" = Some (JStr "T2").
Proof.
  destruct (save_writes_in_place response_T2 expired_state
              (_save_tokens response_T2 expired_state).2 eq_refl)
    as (rec & H1 & _ & H2 & _).
  exists rec. split; [exact H1 | exact H2].
Defined.

(** C9, as stated, fails: during a completed save of [response_T2] over
    the record of [expired_state], the token file is for a while the empty
    file, which is neither the record before nor the record after, and
    from which a reader starting then loads no credentials. *)
Lemma save_not_atomic :
  (_save_tokens response_T2 expired_state).1 = Ret tt /\
  (exists rec,
     written (sys (_save_tokens response_T2 expired_state).2)
       = [Text ""; Doc (JObj rec)]) /\
  Text "" <> token_file (sys expired_state) /\
  Text "" <> token_file (sys (_save_tokens response_T2 expired_state).2) /\
  (exists w,
     __init__ cfg0 (world_at 1010 (Text "")) =
       (Ret tt,
        {| self := {| cfg := cfg0; access_token := JNull;
                      refresh_token := JNull; token_expires_at := JNull;
                      api_domain_for_tokens := JNull |};
           sys := w |}) /\
     logged w = [(ERROR, "Failed to load tokens")]).
Proof.
  split; [reflexivity|]. split; [eexists; reflexivity|].
  split; [discriminate|]. split; [discriminate|].
  eexists. split; reflexivity.
Qed.

(** C6. Loading never raises, at construction or later, whatever the token
    file holds and whatever else fails. With no file the object starts
    with no credentials and nothing is logged; with a file that is not
    JSON, not a JSON object, or cannot be read, it starts with no
    credentials and the failure is logged as an error; a JSON object gives
    its fields to the object. *)
Theorem load_never_raises (c : config) (w : world) :
  let blank :=
    {| cfg := c; access_token := JNull; refresh_token := JNull;
       token_expires_at := JNull; api_domain_for_tokens := JNull |} in
  let failed :=
    {| self := blank;
       sys := with_logged (logged w ++ [(ERROR, "Failed to load tokens")])
                w |} in
  (exists s', __init__ c w = (Ret tt, s')) /\
  (forall s, exists s', _load_tokens s = (Ret tt, s')) /\
  (token_file w = Missing ->
     __init__ c w = (Ret tt, {| self := blank; sys := w |})) /\
  (forall t, token_file w = Text t -> __init__ c w = (Ret tt, failed)) /\
  (forall j, token_file w = Doc j -> (forall m, j <> JObj m) ->
     __init__ c w = (Ret tt, failed)) /\
  (token_file w <> Missing -> open_r_fails (io w) = true ->
     __init__ c w = (Ret tt, failed)) /\
  (forall m, token_file w = Doc (JObj m) -> open_r_fails (io w) = false ->
     exists s', __init__ c w = (Ret tt, s') /\
       access_token (self s') = default JNull (m !! "access_token") /\
       refresh_token (self s') = default JNull (m !! "refresh_token") /\
       token_expires_at (self s') = default JNull (m !! "expires_at") /\
       api_domain_for_tokens (self s')
         = default (JStr (api_domain c)) (m !! "api_domain")).
Proof.
  assert (forall s, exists s', _load_tokens s = (Ret tt, s')) as Hload.
  { intros s. unfold _load_tokens, try_except, bind, os_path_exists,
      json_load_file. simpl.
    destruct (token_file (sys s)) as [|t|j] eqn:Ef; simpl; rewrite ?Ef;
      destruct (open_r_fails (io (sys s))); simpl;
      try (eexists; reflexivity).
    destruct j; simpl; eexists; reflexivity. }
  simpl. unfold __init__.
  split; [apply Hload|]. split; [apply Hload|].
  unfold _load_tokens, try_except, bind, os_path_exists, json_load_file.
  simpl. repeat split.
  - by intros ->.
  - intros t Ef. rewrite Ef. simpl. rewrite Ef.
    by destruct (open_r_fails (io w)).
  - intros j Ef Hj. rewrite Ef. simpl. rewrite Ef.
    destruct (open_r_fails (io w)); [done|].
    destruct j; simpl; try done. by destruct (Hj kvs).
  - intros Hf Hr. destruct (token_file w); [done| |]; simpl; by rewrite Hr.
  - intros m Ef Hr. rewrite Ef. simpl. rewrite Ef, Hr. simpl.
    eexists. split; [reflexivity|done].
Qed.

(** ** Exchanges *)

Lemma requests_post_cases url data s :
  requests_post url data s =
  (match head (replies (sys s)) with
   | Some (Response c t b) => Ret (c, t, b)
   | _ => Exc RequestException
   end, posted url data s).
Proof.
  unfold requests_post, posted, bind, emit, modify_sys, get_sys. simpl.
  by destruct (replies (sys s)) as [|[|c t b] rest].
Qed.

(** A save returns or raises, and touches nothing but the credentials,
    the token file and the log. *)
Lemma _save_tokens_outcome (tokens : json) (s : state) :
  exists r s',
    _save_tokens tokens s = (r, s') /\
    r = (if save_succeeds tokens (sys s) then Ret tt else r) /\
    (save_succeeds tokens (sys s) = false -> exists e, r = Exc e) /\
    printed (sys s') = printed (sys s) /\
    trace (sys s') = trace (sys s) /\
    io (sys s') = io (sys s) /\
    incoming (sys s') = incoming (sys s) /\
    clock (sys s') = clock (sys s).
Proof.
  rewrite _save_tokens_cases. unfold save_succeeds, writable.
  destruct tokens; try (eexists _, _; split; [reflexivity|]; simpl;
    repeat split; try done; by eexists).
  destruct (lifetime_of kvs) as [q|];
    [|eexists _, _; split; [reflexivity|]; simpl; repeat split; try done;
      by eexists].
  destruct (mkdir_fails (io (sys s))), (open_w_fails (io (sys s))),
    (dump_fails (io (sys s)));
    (eexists _, _; split; [reflexivity|]; simpl; unfold left_by_dump;
     simpl; destruct (dump_leaves (io (sys s))); simpl;
     repeat split; try done; by eexists).
Qed.

(** Closes the frame conditions of an exchange once its result is known. *)
Ltac exchange_done :=
  eexists; split; [reflexivity|]; simpl;
  repeat match goal with |- _ /\ _ => split end; try done;
  try (by rewrite last_snoc);
  try (intros [|H]; [done | destruct H; lia]).

(** [refresh_access_token] returns, with [True] exactly when a refresh
    token is held and its exchange succeeds; it sends one request when a
    token is held and none otherwise, prints nothing, and keeps the
    credentials when the reply fails or no token is held. *)
Lemma refresh_access_token_outcome (s : state) :
  exists s',
    refresh_access_token s = (Ret (refresh_succeeds s), s') /\
    printed (sys s') = printed (sys s) /\
    trace (sys s') = trace (sys s) ++
      (if truthy (refresh_token (self s)) then [refresh_request (self s)]
       else []) /\
    io (sys s') = io (sys s) /\
    incoming (sys s') = incoming (sys s) /\
    clock (sys s') = clock (sys s) /\
    (truthy (refresh_token (self s)) = false \/ reply_fails (sys s) ->
     same_credentials s s').
Proof.
  unfold refresh_access_token, refresh_succeeds, exchange_succeeds,
    reply_fails, same_credentials, bind at 1. simpl.
  destruct (truthy (refresh_token (self s))) eqn:Ht; simpl.
  2:{ eexists. split; [reflexivity|]. simpl. rewrite app_nil_r. done. }
  unfold try_except, bind. rewrite requests_post_cases.
  destruct (replies (sys s)) as [|[|c t b] rest] eqn:Er; simpl.
  1,2: exchange_done.
  destruct (c =? 200)%Z eqn:Ec; simpl.
  2:{ destruct b; exchange_done. }
  apply Z.eqb_eq in Ec as ->.
  destruct b as [tokens|]; simpl.
  2:{ exchange_done. }
  destruct (_save_tokens_outcome tokens
              (posted (accounts_domain (cfg (self s)) +:+ "/oauth/v2/token")
                 [("grant_type", JStr "refresh_token");
                  ("refresh_token", refresh_token (self s));
                  ("client_id", JStr (client_id (cfg (self s))));
                  ("client_secret", JStr (client_secret (cfg (self s))))]
                 s))
    as (r & s2 & Hrun & Hr & He & Hp & Htr & Hio & Hin & Hck).
  rewrite Hrun. simpl in *.
  change (save_succeeds tokens _) with (save_succeeds tokens (sys s)) in *.
  destruct (save_succeeds tokens (sys s)) eqn:Hs.
  - rewrite Hr. simpl. exchange_done.
  - destruct (He eq_refl) as [e ->]. simpl. exchange_done.
Qed.

(** [_exchange_code_for_tokens] returns, with [True] exactly when the
    exchange succeeds; it sends one request, prints nothing, and keeps the
    credentials when the reply fails. *)
Lemma _exchange_code_for_tokens_outcome (code : json) (s : state) :
  exists s',
    _exchange_code_for_tokens code s = (Ret (exchange_succeeds (sys s)), s') /\
    printed (sys s') = printed (sys s) /\
    trace (sys s') = trace (sys s) ++ [code_request (self s) code] /\
    io (sys s') = io (sys s) /\
    incoming (sys s') = incoming (sys s) /\
    clock (sys s') = clock (sys s) /\
    last (logged (sys s')) <> Some (ERROR, "Authorization failed") /\
    (False \/ reply_fails (sys s) -> same_credentials s s').
Proof.
  unfold _exchange_code_for_tokens, exchange_succeeds, reply_fails,
    same_credentials, try_except, bind. simpl.
  rewrite requests_post_cases.
  destruct (replies (sys s)) as [|[|c t b] rest] eqn:Er; simpl.
  1,2: exchange_done.
  destruct (c =? 200)%Z eqn:Ec; simpl.
  2:{ destruct b; exchange_done. }
  apply Z.eqb_eq in Ec as ->.
  destruct b as [tokens|]; simpl.
  2:{ exchange_done. }
  destruct (_save_tokens_outcome tokens
              (posted (accounts_domain (cfg (self s)) +:+ "/oauth/v2/token")
                 [("grant_type", JStr "authorization_code");
                  ("client_id", JStr (client_id (cfg (self s))));
                  ("client_secret", JStr (client_secret (cfg (self s))));
                  ("redirect_uri", JStr (redirect_uri (cfg (self s))));
                  ("code", code)]
                 s))
    as (r & s2 & Hrun & Hr & He & Hp & Htr & Hio & Hin & Hck).
  rewrite Hrun. simpl in *.
  change (save_succeeds tokens _) with (save_succeeds tokens (sys s)) in *.
  destruct (save_succeeds tokens (sys s)) eqn:Hs.
  - rewrite Hr. simpl. exchange_done.
  - destruct (He eq_refl) as [e ->]. simpl. exchange_done.
Qed.

(** ** The callback listener *)

Lemma refresh_posts_app (a b : list effect) :
  refresh_posts (a ++ b) = refresh_posts a + refresh_posts b.
Proof. unfold refresh_posts. by rewrite List.filter_app, length_app. Qed.

Lemma listener_frame_refl (s : state) : listener_frame s s.
Proof.
  unfold listener_frame. split_and!; try done; [lra|].
  exists []. by rewrite app_nil_r.
Qed.

Lemma listener_frame_trans (s1 s2 s3 : state) :
  listener_frame s1 s2 -> listener_frame s2 s3 -> listener_frame s1 s3.
Proof.
  unfold listener_frame.
  intros (A1 & A2 & A3 & A4 & A5 & A6 & A7 & A8 & n1 & A9 & A10)
         (B1 & B2 & B3 & B4 & B5 & B6 & B7 & B8 & n2 & B9 & B10).
  split_and!; try congruence; [lra|].
  exists (n1 ++ n2). split; [by rewrite B9, A9, <- app_assoc|].
  rewrite refresh_posts_app. lia.
Qed.

Lemma milliseconds_nonneg (n : N) : (0 <= milliseconds n)%Q.
Proof. unfold milliseconds, Qle. simpl. lia. Qed.

(** One call of [handle_request] returns; it either serves a pending
    request, or takes the full 300 seconds. *)
Lemma handle_request_outcome (server : HTTPServer) (s : state) :
  timeout server = 300%N ->
  exists server' s',
    handle_request server s = (Ret server', s') /\
    timeout server' = 300%N /\ listener_frame s s' /\
    (length (incoming (sys s')) < length (incoming (sys s)) \/
     (clock (sys s') == clock (sys s) + 300)%Q /\
     length (incoming (sys s')) = length (incoming (sys s)) /\
     server' = server).
Proof.
  intros Ht. unfold handle_request, bind at 1. simpl.
  destruct (incoming (sys s)) as [|a rest] eqn:Ei.
  { rewrite Ht. eexists _, _. split; [reflexivity|]. simpl.
    split; [done|]. split.
    - unfold listener_frame. simpl. split_and!; try done.
      + unfold seconds, inject_Z. simpl. lra.
      + exists []. by rewrite app_nil_r.
    - right. rewrite Ei. split_and!; done. }
  rewrite Ht. destruct (wait_ms a <? 1000 * 300)%N eqn:Ew.
  - unfold do_GET, bind, elapse, modify_sys, emit. simpl.
    pose proof (milliseconds_nonneg (wait_ms a)) as Hms.
    destruct (String.prefix "/callback" (req_path (req a)));
      [destruct (query_params (req a) !! "code");
       [|destruct (query_params (req a) !! "error")]|];
      (eexists _, _; split; [reflexivity|]; simpl; split; [done|]; split;
       [unfold listener_frame; simpl; split_and!; try done; [lra|];
        first [ by eexists [_] | exists []; by rewrite app_nil_r ]
       | left; lia ]).
  - eexists _, _. split; [reflexivity|]. simpl. split; [done|]. split.
    + unfold listener_frame. simpl. split_and!; try done.
      * unfold seconds, inject_Z. simpl. lra.
      * exists []. by rewrite app_nil_r.
    + right. split_and!; done.
Qed.

Lemma Qltb_true (a b : Q) : Qltb a b = true <-> (a < b)%Q.
Proof. unfold Qltb. destruct (Qlt_le_dec a b); split; try done. lra. Qed.

Lemma Qltb_false (a b : Q) : Qltb a b = false <-> (b <= a)%Q.
Proof. unfold Qltb. destruct (Qlt_le_dec a b); split; try done. lra. Qed.

Lemma wait_for_callback_unfold fuel start_time server :
  wait_for_callback (S fuel) start_time server =
  bind time_time (fun t =>
    if Qltb (t - start_time) 300 then
      bind (handle_request server) (fun server =>
        if truthy (py_or (auth_code server) (auth_error server)) then
          ret server
        else wait_for_callback fuel start_time server)
    else ret server).
Proof. reflexivity. Qed.

(** The waiting loop returns when given the rounds it can need, and acts
    on the world as a listener only. *)
Lemma wait_for_callback_returns (fuel : nat) (start_time : Q) :
  forall (server : HTTPServer) (s : state),
    timeout server = 300%N ->
    (start_time <= clock (sys s))%Q ->
    rounds_needed start_time s <= fuel ->
    exists server' s',
      wait_for_callback fuel start_time server s = (Ret server', s') /\
      listener_frame s s'.
Proof.
  induction fuel as [|fuel IH]; intros server s Ht Hstart Hfuel.
  { unfold rounds_needed in Hfuel.
    destruct (Qltb (clock (sys s) - start_time) 300); lia. }
  rewrite wait_for_callback_unfold. unfold bind at 1. simpl.
  unfold rounds_needed in Hfuel.
  destruct (Qltb (clock (sys s) - start_time) 300) eqn:Hc.
  2:{ eexists _, _. split; [reflexivity | apply listener_frame_refl]. }
  unfold bind.
  destruct (handle_request_outcome server s Ht)
    as (server1 & s1 & -> & Ht1 & Hframe & Hprogress).
  destruct (truthy (py_or (auth_code server1) (auth_error server1))).
  { eexists _, _. split; [reflexivity | done]. }
  assert (start_time <= clock (sys s1))%Q as Hstart1.
  { destruct Hframe as (_ & _ & _ & _ & _ & _ & _ & Hck & _). lra. }
  destruct (IH server1 s1 Ht1 Hstart1) as (server2 & s2 & -> & Hframe2).
  - unfold rounds_needed.
    destruct Hprogress as [Hlen | (Hck & Hlen & _)].
    + destruct (Qltb (clock (sys s1) - start_time) 300); lia.
    + assert (Qltb (clock (sys s1) - start_time) 300 = false) as ->
        by (apply Qltb_false; lra).
      lia.
  - eexists _, _. split; [reflexivity|].
    by apply listener_frame_trans with s1.
Qed.

Lemma milliseconds_lt (n : N) :
  (n < 300000)%N -> (milliseconds n < 300)%Q.
Proof. unfold milliseconds, Qlt. simpl. lia. Qed.

(** One call of [handle_request] takes at most its 300 seconds. *)
Lemma handle_request_duration (server : HTTPServer) (s : state) :
  timeout server = 300%N ->
  (clock (sys (handle_request server s).2) <= clock (sys s) + 300)%Q.
Proof.
  intros Ht. unfold handle_request, bind at 1. simpl.
  destruct (incoming (sys s)) as [|a rest]; rewrite Ht.
  { simpl. unfold seconds, inject_Z. simpl. lra. }
  destruct (wait_ms a <? 1000 * 300)%N eqn:Ew.
  - apply N.ltb_lt in Ew.
    assert (milliseconds (wait_ms a) < 300)%Q as Hms
      by (apply milliseconds_lt; lia).
    unfold do_GET, bind, elapse, modify_sys, emit. simpl.
    destruct (String.prefix "/callback" (req_path (req a)));
      [destruct (query_params (req a) !! "code");
       [|destruct (query_params (req a) !! "error")]|];
      simpl; lra.
  - simpl. unfold seconds, inject_Z. simpl. lra.
Qed.

(** The waiting loop ends less than 600 seconds after [start_time]: its
    last round starts before 300 seconds and takes at most 300 more. *)
Lemma wait_for_callback_deadline (fuel : nat) (start_time : Q) :
  forall (server : HTTPServer) (s : state),
    timeout server = 300%N ->
    (clock (sys s) - start_time < 600)%Q ->
    (clock (sys (wait_for_callback fuel start_time server s).2)
     - start_time < 600)%Q.
Proof.
  induction fuel as [|fuel IH]; intros server s Ht Hnow; [done|].
  rewrite wait_for_callback_unfold. unfold bind at 1. simpl.
  destruct (Qltb (clock (sys s) - start_time) 300) eqn:Hc; [|done].
  apply Qltb_true in Hc. unfold bind.
  pose proof (handle_request_duration server s Ht) as Hd.
  destruct (handle_request_outcome server s Ht)
    as (server1 & s1 & Hrun & Ht1 & _).
  rewrite Hrun in Hd |- *. simpl in Hd.
  destruct (truthy (py_or (auth_code server1) (auth_error server1))).
  - simpl. lra.
  - apply IH; [done | lra].
Qed.

(** ** The interactive flow *)

(** [authorize_interactive] returns a boolean in every world: it neither
    raises nor waits for ever. It announces itself on the standard output
    and sends no request of the refresh grant. *)
Lemma authorize_interactive_outcome (s : state) :
  exists b s',
    authorize_interactive s = (Ret b, s') /\
    (exists line lines,
       printed (sys s') = printed (sys s) ++ line :: lines) /\
    (exists new,
       trace (sys s') = trace (sys s) ++ new /\ refresh_posts new = 0) /\
    (clock (sys s') - clock (sys s) < 600)%Q.
Proof.
  unfold authorize_interactive, try_except, get_authorization_url, print,
    HTTPServer_bind, bind. simpl.
  destruct (bind_fails (io (sys s))); simpl.
  { eexists _, _. split; [reflexivity|]. simpl. split_and!.
    - eexists _, _. rewrite <- !app_assoc. reflexivity.
    - exists []. by rewrite app_nil_r.
    - lra. }
  match goal with
  | |- context [wait_for_callback ?f ?st ?srv ?s0] =>
      pose proof (wait_for_callback_deadline f st srv s0) as Hdeadline;
      destruct (wait_for_callback_returns f st srv s0)
        as (server & s1 & Hrun & Hframe)
  end.
  { reflexivity. }
  { simpl. lra. }
  { unfold rounds_needed, enough_fuel. simpl.
    destruct (Qltb (clock (sys s) - clock (sys s)) 300); lia. }
  rewrite Hrun in Hdeadline |- *. clear Hrun.
  assert (clock (sys s1) - clock (sys s) < 600)%Q as Hck.
  { apply Hdeadline; [reflexivity | simpl; lra]. }
  clear Hdeadline.
  destruct Hframe as (_ & _ & _ & Hp & _ & _ & _ & _ & new & Htr & Hnew).
  simpl in Hp, Htr.
  destruct (truthy (auth_error server)); simpl.
  { eexists _, _. split; [reflexivity|]. simpl. rewrite Hp, Htr.
    split_and!; [| |done].
    - eexists _, _. rewrite <- !app_assoc. reflexivity.
    - eexists. rewrite <- !app_assoc. split; [reflexivity|].
      rewrite !refresh_posts_app, Hnew. reflexivity. }
  destruct (truthy (auth_code server)); simpl.
  2:{ eexists _, _. split; [reflexivity|]. simpl. rewrite Hp, Htr.
    split_and!; [| |done].
    - eexists _, _. rewrite <- !app_assoc. reflexivity.
    - eexists. rewrite <- !app_assoc. split; [reflexivity|].
      rewrite !refresh_posts_app, Hnew. reflexivity. }
  destruct (_exchange_code_for_tokens_outcome (auth_code server) s1)
    as (s2 & -> & Hp2 & Htr2 & _ & _ & Hck2 & _ & _).
  eexists _, _. split; [reflexivity|]. rewrite Hp2, Htr2, Hp, Htr, Hck2.
  split_and!; [| |done].
  - eexists _, _. rewrite <- !app_assoc. reflexivity.
  - eexists. rewrite <- !app_assoc. split; [reflexivity|].
    rewrite !refresh_posts_app, Hnew. reflexivity.
Qed.

(** ** The supervisor *)

Lemma is_token_valid_stale (s : state) :
  stale s -> is_token_valid s = (Ret false, s).
Proof.
  unfold stale, is_token_valid, bind, sub_number. simpl.
  intros [-> | [-> | (q & Hq & Hle)]]; simpl; [done | by rewrite orb_true_r |].
  destruct (negb (truthy (access_token (self s))) ||
            negb (truthy (token_expires_at (self s)))); [done|].
  rewrite Hq. simpl. unfold ret. f_equal. f_equal. by apply Qltb_false.
Qed.

Lemma is_token_valid_fresh (s : state) :
  fresh s -> is_token_valid s = (Ret true, s).
Proof.
  unfold fresh, held, is_token_valid, bind, sub_number. simpl.
  intros (-> & -> & q & -> & Hlt). simpl. unfold ret. f_equal. f_equal.
  by apply Qltb_true.
Qed.

(** C2. With an access token and an expiry held and the clock more than
    300 seconds before the expiry, [get_valid_access_token] returns the
    held token and leaves the whole state as it was: nothing is sent to
    the provider, no listener is started, nothing is printed or logged. *)
Theorem valid_token_no_network (s : state) :
  fresh s ->
  get_valid_access_token s = (Ret (access_token (self s)), s).
Proof.
  intros Hfresh. unfold get_valid_access_token, bind at 1.
  by rewrite (is_token_valid_fresh s Hfresh).
Qed.

Lemma valid_token_no_network_witness :
  get_valid_access_token (state_with 2000 1010 [] []) =
  (Ret (JStr "T1"), state_with 2000 1010 [] []).
Proof.
  apply (valid_token_no_network (state_with 2000 1010 [] [])).
  split; [reflexivity|]. split; [reflexivity|].
  exists 2000%Q. split; [reflexivity|]. simpl. lra.
Defined.

Lemma app_cons_neq {A} (l t : list A) (x : A) : l ++ x :: t <> l.
Proof.
  intros H. apply (f_equal length) in H. rewrite length_app in H.
  simpl in H. lia.
Qed.

(** C1. When the access token is missing or stale, [get_valid_access_token]
    returns a value, never an exception. Its first act on the network is
    one request of the refresh grant if a refresh token is held, and no
    other such request follows; with no refresh token held there is none.
    The interactive flow starts (its banner is printed) exactly when no
    refresh token is held or the refresh exchange does not succeed.
    A successful refresh or interactive flow returns the access token
    then held; an interactive flow that returns [False] makes the result
    [None]. *)
Theorem stale_token_escalation (s : state) :
  stale s ->
  exists v s',
    get_valid_access_token s = (Ret v, s') /\
    (exists rest,
       trace (sys s') =
       trace (sys s) ++
       (if truthy (refresh_token (self s)) then [refresh_request (self s)]
        else []) ++ rest /\
       refresh_posts rest = 0) /\
    (printed (sys s') <> printed (sys s) <-> refresh_succeeds s = false) /\
    (refresh_succeeds s = true -> v = access_token (self s')) /\
    (refresh_succeeds s = false ->
       ((authorize_interactive (escalation_state s)).1 = Ret true ->
        v = access_token (self s')) /\
       ((authorize_interactive (escalation_state s)).1 = Ret false ->
        v = JNull)).
Proof.
  intros Hstale. unfold get_valid_access_token, bind at 1.
  rewrite (is_token_valid_stale s Hstale). unfold escalation_state.
  unfold bind at 1.
  change (logger INFO ?m s) with (Ret tt, noted INFO m s).
  destruct (refresh_access_token_outcome
    (noted INFO "Access token expired or invalid, attempting refresh..." s))
    as (s1 & Hrun & Hp1 & Htr1 & _).
  change (refresh_succeeds (noted _ _ s)) with (refresh_succeeds s) in Hrun.
  simpl in Hp1, Htr1. unfold bind at 1. rewrite Hrun. simpl.
  destruct (refresh_succeeds s) eqn:Hok.
  { eexists _, _. split; [reflexivity|]. split_and!; try done.
    exists []. by rewrite app_nil_r. }
  unfold bind at 1.
  change (logger WARNING ?m s1) with (Ret tt, noted WARNING m s1).
  destruct (authorize_interactive_outcome
    (noted WARNING
       "Token refresh failed, interactive authorization required" s1))
    as (b & s2 & Hrun2 & (line & lines & Hp2) & (new & Htr2 & Hnew) & _).
  simpl in Hp2, Htr2. unfold bind at 1. rewrite Hrun2. simpl.
  destruct b.
  - eexists _, _. split; [reflexivity|]. simpl. split_and!; try done.
    + exists new. by rewrite Htr2, Htr1, <- app_assoc.
    + split; [done|]. intros _. rewrite Hp2, Hp1. apply app_cons_neq.
  - eexists _, _. split; [reflexivity|]. simpl. split_and!; try done.
    + exists new. by rewrite Htr2, Htr1, <- app_assoc.
    + split; [done|]. intros _. rewrite Hp2, Hp1. apply app_cons_neq.
Qed.

Lemma stale_token_escalation_witness :
  exists v s',
    get_valid_access_token
      (state_with 1000 1010 [Response 200 "" (Some response_T2)] []) =
    (Ret v, s').
Proof.
  destruct (stale_token_escalation
    (state_with 1000 1010 [Response 200 "" (Some response_T2)] []))
    as (v & s' & H & _).
  - right. right. exists 1000%Q. split; [reflexivity|]. simpl. lra.
  - exists v, s'. exact H.
Defined.

(** ** Failed attempts *)

Lemma truthy_py_or (a b : json) :
  truthy (py_or a b) = truthy a || truthy b.
Proof. unfold py_or. by destruct (truthy a) eqn:E; rewrite ?E. Qed.

(** A round of the waiting loop that serves the provider's error redirect
    ends the loop with the error recorded. *)
Lemma wait_for_callback_error_redirect (fuel : nat) (start_time : Q)
    (server : HTTPServer) (s : state) (a : arrival) (rest : list arrival)
    (e : string) :
  (clock (sys s) - start_time < 300)%Q ->
  incoming (sys s) = a :: rest ->
  (wait_ms a < 1000 * timeout server)%N ->
  String.prefix "/callback" (req_path (req a)) = true ->
  query_params (req a) !! "code" = None ->
  query_params (req a) !! "error" = Some e ->
  e <> "" ->
  exists server' s',
    wait_for_callback (S fuel) start_time server s = (Ret server', s') /\
    truthy (auth_error server') = true /\ same_credentials s s'.
Proof.
  intros Hc Ei Hw Hpath Hcode Herr He.
  rewrite wait_for_callback_unfold. unfold bind at 1. simpl.
  apply Qltb_true in Hc as ->. apply N.ltb_lt in Hw.
  unfold handle_request, do_GET, bind. simpl. rewrite Ei, Hw. simpl.
  rewrite Hpath, Hcode, Herr. simpl.
  destruct e as [|c e]; [done|]. rewrite truthy_py_or. simpl.
  rewrite orb_true_r.
  eexists _, _. split; [reflexivity|]. by split.
Qed.

(** An interactive flow whose first request is the provider's error
    redirect returns [False] and keeps the credentials. *)
Lemma authorize_interactive_error_redirect (s : state) (a : arrival)
    (rest : list arrival) (e : string) :
  incoming (sys s) = a :: rest ->
  (wait_ms a < 300000)%N ->
  String.prefix "/callback" (req_path (req a)) = true ->
  query_params (req a) !! "code" = None ->
  query_params (req a) !! "error" = Some e ->
  e <> "" ->
  exists s',
    authorize_interactive s = (Ret false, s') /\ same_credentials s s'.
Proof.
  intros Ei Hw Hpath Hcode Herr He.
  unfold authorize_interactive, try_except, get_authorization_url, print,
    HTTPServer_bind, bind. simpl.
  destruct (bind_fails (io (sys s))); simpl.
  { eexists. split; [reflexivity | done]. }
  unfold enough_fuel. simpl.
  match goal with
  | |- context [wait_for_callback (S ?f) ?st ?srv ?s0] =>
      destruct (wait_for_callback_error_redirect f st srv s0 a rest e)
        as (server & s1 & Hrun & Herror & Hsame); try done
  end.
  { simpl. lra. }
  rewrite Hrun, Herror. simpl.
  eexists. split; [reflexivity|].
  destruct Hsame as (H1 & H2 & H3). by split_and!.
Qed.

(** An interactive flow whose log ends on the report of an error redirect
    returned [False] and kept the credentials. *)
Lemma authorize_interactive_error_resolved (s s' : state)
    (r : outcome bool) :
  authorize_interactive s = (r, s') ->
  last (logged (sys s')) = Some (ERROR, "Authorization failed") ->
  r = Ret false /\ same_credentials s s'.
Proof.
  unfold authorize_interactive, try_except, get_authorization_url, print,
    HTTPServer_bind, bind. simpl.
  destruct (bind_fails (io (sys s))); simpl.
  { intros [= <- <-]. simpl. by rewrite last_snoc. }
  match goal with
  | |- context [wait_for_callback ?f ?st ?srv ?s0] =>
      destruct (wait_for_callback_returns f st srv s0)
        as (server & s1 & Hrun & Hframe)
  end.
  { reflexivity. }
  { simpl. lra. }
  { unfold rounds_needed, enough_fuel. simpl.
    destruct (Qltb (clock (sys s) - clock (sys s)) 300); lia. }
  rewrite Hrun. clear Hrun.
  destruct Hframe as (Hself & Hfile & Hwritten & _).
  simpl in Hself, Hfile, Hwritten.
  destruct (truthy (auth_error server)); simpl.
  { intros [= <- <-] _. by split. }
  destruct (truthy (auth_code server)); simpl.
  2:{ intros [= <- <-]. simpl. by rewrite last_snoc. }
  destruct (_exchange_code_for_tokens_outcome (auth_code server) s1)
    as (s2 & -> & _ & _ & _ & _ & _ & Hlog & _).
  by intros [= <- <-].
Qed.

(** C5. An exchange of either grant whose reply is a network error or
    has a status outside 200..299, and an interactive flow that the
    provider's error redirect ends (as its first request, or after any
    others as long as the flow reports it), return [False] and leave the
    credentials as they were: the fields in memory, the token file, and
    every content the file ever had. *)
Theorem failed_attempt_keeps_credentials (op : M bool) (s : state) :
  failed_attempt op s ->
  exists s', op s = (Ret false, s') /\ same_credentials s s'.
Proof.
  intros [code s0 Hfail | s0 Hfail | s0 a rest e Ei Hw Hpath Hcode Herr He
          | s0 Hlog].
  - destruct (_exchange_code_for_tokens_outcome code s0)
      as (s' & Hrun & _ & _ & _ & _ & _ & _ & Hsame).
    exists s'. split; [|by auto]. rewrite Hrun. do 2 f_equal.
    unfold exchange_succeeds. unfold reply_fails in Hfail.
    destruct (replies (sys s0)) as [|[|c t [tokens|]] rs]; try done.
    destruct (Z.eqb_spec c 200) as [->|]; [lia | done].
  - destruct (refresh_access_token_outcome s0)
      as (s' & Hrun & _ & _ & _ & _ & _ & Hsame).
    exists s'. split; [|by auto]. rewrite Hrun. do 2 f_equal.
    unfold refresh_succeeds, exchange_succeeds. unfold reply_fails in Hfail.
    destruct (replies (sys s0)) as [|[|c t [tokens|]] rs];
      rewrite ?andb_false_r; try done.
    destruct (Z.eqb_spec c 200) as [->|]; [lia | by rewrite andb_false_r].
  - by apply authorize_interactive_error_redirect with a rest e.
  - destruct (authorize_interactive s0) as [r s'] eqn:Hrun.
    destruct (authorize_interactive_error_resolved s0 s' r Hrun Hlog)
      as [-> Hsame].
    by exists s'.
Qed.

Lemma failed_attempt_keeps_credentials_witness :
  exists s',
    refresh_access_token
      (state_with 1000 1010 [Response 500 "oops" None] []) =
    (Ret false, s') /\
    same_credentials (state_with 1000 1010 [Response 500 "oops" None] []) s'.
Proof.
  apply (failed_attempt_keeps_credentials refresh_access_token
           (state_with 1000 1010 [Response 500 "oops" None] [])).
  apply refresh_failed. intros [_ H]. discriminate H.
Defined.

(** ** Revocation *)




(** ** The deadline of the interactive flow *)

(** C8 fails on the code. A request outside the callback path reaches the
    listener 299 seconds into the wait and nothing follows: the flow
    reports its time-out 599 seconds after it started waiting, not 300,
    because the second [handle_request] waits its own 300 seconds. And a
    code that arrives 400 seconds into the wait is still taken and
    exchanged. *)
Theorem authorize_interactive_overruns_deadline :
  let late := authorize_interactive
    (state_with 1000 1010 [] [ {| wait_ms := 299000; req := favicon |} ]) in
  let taken := authorize_interactive
    (state_with 1000 1010 [Response 200 "" (Some response_T2)]
       [ {| wait_ms := 299000; req := favicon |};
         {| wait_ms := 101000; req := code_ABC |} ]) in
  (late.1 = Ret false /\
   (clock (sys late.2) - 1010 == 599)%Q /\
   logged (sys late.2) = [(ERROR, "Authorization timed out")] /\
   trace (sys late.2) =
     [Bind "localhost" 8080;
      OpenBrowser "https://accounts.zoho.com/oauth/v2/auth?"
        [("scope", "ZohoCRM.modules.ALL,ZohoCRM.settings.ALL");
         ("client_id", "1000.CLIENT"); ("response_type", "code");
         ("redirect_uri", "http://localhost:8080/callback");
         ("access_type", "offline"); ("prompt", "consent")];
      SendResponse 404]) /\
  (taken.1 = Ret true /\
   (clock (sys taken.2) - 1010 == 400)%Q /\
   access_token (self taken.2) = JStr "T2").
Proof. split_and!; vm_compute; reflexivity. Qed.

(** ** The scenarios of the specification *)

(** The record expired ten seconds ago and the refresh reply carries no
    refresh token: the new access token is returned, the refresh token
    stays, the expiry is an hour from now. *)
Example scenario_refresh :
  let run := get_valid_access_token
    (state_with 1000 1010 [Response 200 "" (Some response_T2)] []) in
  run.1 = Ret (JStr "T2") /\
  refresh_token (self run.2) = JStr "R1" /\
  token_expires_at (self run.2) = JNum (1010 + 3600) /\
  persisted (sys run.2) "refresh_token" = Some (JStr "R1").
Proof. split_and!; vm_compute; reflexivity. Qed.

(** No record exists and the redirect carries [code=ABC]: the code is
    exchanged and the record is written with the values received. *)
Example scenario_first_grant :
  let run := get_valid_access_token
    (first_run 1010 [Response 200 "" (Some response_T1)]
       [ {| wait_ms := 5000; req := code_ABC |} ]) in
  run.1 = Ret (JStr "T1") /\
  last (trace (sys run.2)) = Some (code_request (self run.2) (JStr "ABC")) /\
  persisted (sys run.2) "access_token" = Some (JStr "T1") /\
  persisted (sys run.2) "refresh_token" = Some (JStr "R1") /\
  persisted (sys run.2) "expires_at"
    = Some (JNum (1010 + (5000 # 1000) + 3600)).
Proof. split_and!; vm_compute; reflexivity. Qed.

(** The redirect carries [error=access_denied]: nothing is returned and
    the credentials are untouched. *)
Example scenario_access_denied :
  let start :=
    first_run 1010 [] [ {| wait_ms := 5000; req := access_denied |} ] in
  let run := get_valid_access_token start in
  run.1 = Ret JNull /\ same_credentials start run.2.
Proof. unfold same_credentials. split_and!; vm_compute; reflexivity. Qed.

(** ** A bound on the interactive flow *)


(** ** The record on file and the object in memory *)

(** A completed save can be read back: a new [ZohoAuth] built over the
    file that the save wrote, with the same configuration, holds the four
    credential fields of the object that saved, and leaves the file as it
    is; the read must not fail. *)
Theorem saved_record_reloads (tokens : json) (s s' : state) :
  _save_tokens tokens s = (Ret tt, s') ->
  open_r_fails (io (sys s)) = false ->
  exists s'',
    __init__ (cfg (self s')) (sys s') = (Ret tt, s'') /\
    self s'' = self s' /\
    token_file (sys s'') = token_file (sys s').
Proof.
  intros Hrun Hr.
  apply _save_tokens_returns in Hrun as (m & q & -> & _ & _ & ->).
  unfold __init__, _load_tokens, try_except, bind, os_path_exists,
    json_load_file. simpl. rewrite Hr. simpl.
  destruct (record_of_lookup (self s) m (clock (sys s) + q))
    as (H1 & H2 & H3 & H4).
  rewrite H1, H2, H3, H4. simpl.
  eexists. split; [reflexivity|]. by split.
Qed.

Lemma saved_record_reloads_witness :
  exists s'',
    __init__ cfg0 (sys (_save_tokens response_T2 expired_state).2) =
      (Ret tt, s'') /\
    self s'' = self (_save_tokens response_T2 expired_state).2.
Proof.
  destruct (saved_record_reloads response_T2 expired_state
              (_save_tokens response_T2 expired_state).2 eq_refl eq_refl)
    as (s'' & H1 & H2 & _).
  exists s''. split; [exact H1 | exact H2].
Defined.

Lemma stale_later (s s2 : state) (q : Q) :
  token_expires_at (self s) = JNum q ->
  (q - 300 <= clock (sys s))%Q ->
  self s2 = self s -> (clock (sys s) <= clock (sys s2))%Q ->
  stale s2.
Proof.
  intros He Hq Hs Hc. right. right. exists q. rewrite Hs, He.
  split; [done | lra].
Qed.

(** A token saved with a lifetime of 300 seconds or less is never taken
    for valid: as long as the object holds what the save stored,
    [is_token_valid] answers [False] at the time of the save and at every
    later time, so every call of [get_valid_access_token] refreshes
    again. *)
Theorem short_lived_token_never_valid (tokens : json) (s s' s2 : state)
    (q : Q) :
  _save_tokens tokens s = (Ret tt, s') ->
  field tokens "expires_in" = Some (JNum q) ->
  (q <= 300)%Q ->
  self s2 = self s' -> (clock (sys s') <= clock (sys s2))%Q ->
  is_token_valid s2 = (Ret false, s2).
Proof.
  intros Hrun Hf Hq Hs Hc. apply is_token_valid_stale.
  apply _save_tokens_returns in Hrun as (m & q' & -> & Hl & _ & ->).
  unfold lifetime_of in Hl. simpl in Hf. rewrite Hf in Hl. simpl in Hl.
  destruct (fits_float q); [|discriminate]. injection Hl as <-.
  apply stale_later with (s := saved s m q) (q := (clock (sys s) + q)%Q);
    try done.
  simpl. lra.
Qed.

Lemma short_lived_token_never_valid_witness :
  is_token_valid (_save_tokens (JObj short_lived) expired_state).2 =
    (Ret false, (_save_tokens (JObj short_lived) expired_state).2).
Proof.
  apply (short_lived_token_never_valid (JObj short_lived) expired_state
           (_save_tokens (JObj short_lived) expired_state).2 _ 120
           eq_refl eq_refl).
  - lra.
  - reflexivity.
  - apply Qle_refl.
Defined.

(** ** After a refresh *)








(** ** Edges of the supervisor and of revocation *)

Lemma py_or_idem (a b : json) : py_or (py_or a b) b = py_or a b.
Proof. unfold py_or. destruct (truthy a) eqn:E; [by rewrite E|]. by destruct (truthy b). Qed.

(** After a completed save, [get_api_domain] follows the response: its
    [api_domain] when that is held; the configured domain when the
    response carries a value that Python takes for false; and what it
    gave before the save when the response has none. *)
Theorem api_domain_follows_provider (tokens : json) (s s' : state) :
  _save_tokens tokens s = (Ret tt, s') ->
  (field tokens "api_domain" = None ->
     (get_api_domain s').1 = (get_api_domain s).1) /\
  (forall d, field tokens "api_domain" = Some d -> held d ->
     (get_api_domain s').1 = Ret d) /\
  (forall d, field tokens "api_domain" = Some d -> truthy d = false ->
     (get_api_domain s').1 = Ret (JStr (api_domain (cfg (self s))))).
Proof.
  intros Hrun.
  apply _save_tokens_returns in Hrun as (m & q & -> & _ & _ & ->).
  unfold get_api_domain, bind, held. simpl. split_and!.
  - intros ->. simpl. by rewrite py_or_idem.
  - intros d -> Hd. simpl. unfold py_or. by rewrite Hd.
  - intros d -> Hd. simpl. unfold py_or. by rewrite Hd.
Qed.

Lemma api_domain_follows_provider_witness :
  (get_api_domain (_save_tokens response_T2 expired_state).2).1 =
  (get_api_domain expired_state).1.
Proof.
  destruct (api_domain_follows_provider response_T2 expired_state
              (_save_tokens response_T2 expired_state).2 eq_refl)
    as [H _].
  apply H. reflexivity.
Defined.

(** With an access token held and an expiry that is held but is no
    number (a text, a list, an object), [get_valid_access_token] raises
    the [TypeError] of [self.token_expires_at - 300] and changes nothing:
    no refresh is tried. *)
Theorem non_numeric_expiry_raises (s : state) :
  held (access_token (self s)) ->
  held (token_expires_at (self s)) ->
  as_number (token_expires_at (self s)) = None ->
  get_valid_access_token s = (Exc TypeError, s).
Proof.
  unfold held. intros Ha He Hn.
  unfold get_valid_access_token, is_token_valid, bind, sub_number. simpl.
  rewrite Ha, He, Hn. reflexivity.
Qed.

Lemma non_numeric_expiry_raises_witness :
  get_valid_access_token
    {| self := with_token_expires_at (JStr "soon") (auth_until 1000);
       sys := world_at 1010 Missing |} =
  (Exc TypeError,
   {| self := with_token_expires_at (JStr "soon") (auth_until 1000);
      sys := world_at 1010 Missing |}).
Proof.
  apply (non_numeric_expiry_raises
    {| self := with_token_expires_at (JStr "soon") (auth_until 1000);
       sys := world_at 1010 Missing |}); reflexivity.
Defined.

(** What a revocation that returns [True] leaves behind. *)
Lemma revoke_tokens_true (s s' : state) :
  revoke_tokens s = (Ret true, s') ->
  self s' = cleared (self s) /\ token_file (sys s') = Missing /\
  io (sys s') = io (sys s).
Proof.
  unfold revoke_tokens, try_except, bind at 1 2. simpl.
  destruct (truthy (refresh_token (self s))).
  - unfold bind at 1. rewrite requests_post_cases.
    destruct (replies (sys s)) as [|[|c t b] rest]; simpl; try done.
    destruct (negb (c =? 200)%Z);
      unfold bind, os_path_exists, os_remove; simpl;
      destruct (token_file (sys s)) eqn:Ef; simpl; rewrite ?Ef;
      destruct (remove_fails (io (sys s))); simpl; rewrite ?Ef;
      intros [= <-]; done.
  - unfold bind, os_path_exists, os_remove; simpl;
      destruct (token_file (sys s)) eqn:Ef; simpl; rewrite ?Ef;
      destruct (remove_fails (io (sys s))); simpl; rewrite ?Ef;
      intros [= <-]; done.
Qed.

Lemma revoke_tokens_nothing_held (s : state) :
  truthy (refresh_token (self s)) = false ->
  token_file (sys s) = Missing ->
  revoke_tokens s =
    (Ret true,
     noted INFO "Tokens revoked successfully"
       {| self := cleared (self s); sys := sys s |}).
Proof.
  intros Ht Ef.
  unfold revoke_tokens, try_except, bind, os_path_exists. simpl.
  rewrite Ht. simpl. by rewrite Ef.
Qed.

(** A revocation that returned [True] can be repeated: the second call
    returns [True] too, sends nothing, and only adds its entry to the
    log. *)
Theorem revoke_twice (s s' : state) :
  revoke_tokens s = (Ret true, s') ->
  revoke_tokens s' = (Ret true, noted INFO "Tokens revoked successfully" s').
Proof.
  intros Hrun. apply revoke_tokens_true in Hrun as (Hself & Hfile & _).
  rewrite revoke_tokens_nothing_held; [|by rewrite Hself|done].
  destruct s' as [a w]. simpl in *. by subst a.
Qed.

Lemma revoke_twice_witness :
  revoke_tokens
    (revoke_tokens (state_with 2000 1010 [Response 200 "" None] [])).2 =
  (Ret true,
   noted INFO "Tokens revoked successfully"
     (revoke_tokens (state_with 2000 1010 [Response 200 "" None] [])).2).
Proof.
  apply (revoke_twice (state_with 2000 1010 [Response 200 "" None] [])).
  reflexivity.
Defined.

(** After a revocation that returned [True] the token is not valid, a
    refresh returns [False] without a request, and a new object built
    over the same file holds nothing, exactly as the revoked one. *)
Theorem revoked_means_unauthenticated (s s' : state) :
  revoke_tokens s = (Ret true, s') ->
  is_token_valid s' = (Ret false, s') /\
  (refresh_access_token s').1 = Ret false /\
  trace (sys (refresh_access_token s').2) = trace (sys s') /\
  __init__ (cfg (self s')) (sys s') = (Ret tt, s').
Proof.
  intros Hrun. apply revoke_tokens_true in Hrun as (Hself & Hfile & _).
  split_and!.
  - apply is_token_valid_stale. left. by rewrite Hself.
  - unfold refresh_access_token, bind. simpl. by rewrite Hself.
  - unfold refresh_access_token, bind. simpl. by rewrite Hself.
  - unfold __init__, _load_tokens, bind, os_path_exists. simpl.
    rewrite Hfile. destruct s' as [a w]. simpl in *. by subst a.
Qed.

Lemma revoked_means_unauthenticated_witness :
  is_token_valid
    (revoke_tokens (state_with 2000 1010 [Response 200 "" None] [])).2 =
  (Ret false,
   (revoke_tokens (state_with 2000 1010 [Response 200 "" None] [])).2).
Proof.
  destruct (revoked_means_unauthenticated
    (state_with 2000 1010 [Response 200 "" None] [])
    (revoke_tokens (state_with 2000 1010 [Response 200 "" None] [])).2
    eq_refl) as [H _].
  exact H.
Defined.

(** A save whose write fails after the file was opened raises, and keeps
    the credentials in memory; the file is left with the part of the new
    record that had reached it, empty or cut short, so the record of the
    earlier credentials is lost: an object built over it afterwards holds
    none. The lifetime of the response is one that the save can add to
    the time, so that the save gets as far as the write. *)
Theorem failed_write_loses_record (m : gmap string json) (s : state) (q : Q) :
  lifetime_of m = Some q ->
  mkdir_fails (io (sys s)) = false ->
  open_w_fails (io (sys s)) = false ->
  dump_fails (io (sys s)) = true ->
  open_r_fails (io (sys s)) = false ->
  exists s',
    _save_tokens (JObj m) s = (Exc OSError, s') /\
    self s' = self s /\
    token_file (sys s') = Text (dump_leaves (io (sys s))) /\
    exists s'',
      __init__ (cfg (self s)) (sys s') = (Ret tt, s'') /\
      self s'' = cleared (self s).
Proof.
  intros Hl H1 H2 H3 H4. rewrite _save_tokens_cases, Hl, H1, H2, H3.
  eexists. split; [reflexivity|]. simpl.
  unfold __init__, _load_tokens, try_except, bind, os_path_exists,
    json_load_file, left_by_dump. simpl.
  destruct (dump_leaves (io (sys s))); simpl; rewrite H4; simpl;
    (split_and!; try done; eexists; split; [reflexivity|]; done).
Qed.

Lemma failed_write_loses_record_witness :
  exists s',
    _save_tokens response_T2
      {| self := auth_until 1000;
         sys := faulty disk_full (world_at 1010 (Doc (record_until 1000))) |}
      = (Exc OSError, s') /\
    token_file (sys s') = Text "{".
Proof.
  destruct (failed_write_loses_record grant_T2
    {| self := auth_until 1000;
       sys := faulty disk_full (world_at 1010 (Doc (record_until 1000))) |}
    3600 eq_refl eq_refl eq_refl eq_refl eq_refl)
    as (s' & H1 & _ & H2 & _).
  exists s'. split; [exact H1 | exact H2].
Defined.

(** ** The interactive flow, case by case *)

Lemma stray_frame_trans (s1 s2 s3 : state) :
  stray_frame s1 s2 -> stray_frame s2 s3 -> stray_frame s1 s3.
Proof.
  unfold stray_frame, same_credentials.
  intros ((A1 & A2 & A3) & A4 & A5 & A6 & A7 & n1 & A8)
         ((B1 & B2 & B3) & B4 & B5 & B6 & B7 & n2 & B8).
  split_and!; try congruence; try lra.
  exists (n1 + n2). by rewrite B8, A8, <- app_assoc, repeat_app.
Qed.

Lemma handle_request_stray (server : HTTPServer) (s : state) :
  timeout server = 300%N ->
  all_stray (incoming (sys s)) ->
  exists s',
    handle_request server s = (Ret server, s') /\ stray_frame s s'.
Proof.
  intros Ht Hall. unfold handle_request, bind at 1. simpl.
  unfold stray_frame, same_credentials.
  destruct (incoming (sys s)) as [|a rest] eqn:Ei.
  { rewrite Ht. eexists. split; [reflexivity|]. simpl. rewrite Ei.
    split_and!; try done.
    - unfold seconds, inject_Z. simpl. lra.
    - exists 0. by rewrite app_nil_r. }
  apply Forall_cons in Hall as [Ha Hrest]. rewrite Ht.
  destruct (wait_ms a <? 1000 * 300)%N.
  - unfold do_GET, bind, elapse, modify_sys, emit. simpl.
    pose proof (milliseconds_nonneg (wait_ms a)) as Hms.
    unfold qualifies in Ha.
    destruct (String.prefix "/callback" (req_path (req a))); simpl in Ha.
    + destruct (query_params (req a) !! "code"); [done|].
      destruct (query_params (req a) !! "error"); [done|].
      eexists. split; [reflexivity|]. simpl. split_and!; try done; [lra|].
      exists 0. by rewrite app_nil_r.
    + eexists. split; [reflexivity|]. simpl. split_and!; try done; [lra|].
      by exists 1.
  - eexists. split; [reflexivity|]. simpl. split_and!; try done.
    + unfold seconds, inject_Z. simpl. lra.
    + by apply Forall_cons.
    + exists 0. by rewrite app_nil_r.
Qed.

Lemma wait_for_callback_strays (fuel : nat) (start_time : Q) :
  forall (server : HTTPServer) (s : state),
    timeout server = 300%N ->
    auth_code server = JNull -> auth_error server = JNull ->
    all_stray (incoming (sys s)) ->
    (start_time <= clock (sys s))%Q ->
    rounds_needed start_time s <= fuel ->
    exists s',
      wait_for_callback fuel start_time server s = (Ret server, s') /\
      stray_frame s s' /\ (300 <= clock (sys s') - start_time)%Q.
Proof.
  induction fuel as [|fuel IH]; intros server s Ht Hc He Hall Hstart Hfuel.
  { unfold rounds_needed in Hfuel.
    destruct (Qltb (clock (sys s) - start_time) 300); lia. }
  rewrite wait_for_callback_unfold. unfold bind at 1. simpl.
  unfold rounds_needed in Hfuel.
  destruct (Qltb (clock (sys s) - start_time) 300) eqn:Hnow.
  2:{ apply Qltb_false in Hnow. eexists. split; [reflexivity|].
      split; [|done]. unfold stray_frame. split_and!; try done; [lra|].
      exists 0. by rewrite app_nil_r. }
  unfold bind.
  destruct (handle_request_outcome server s Ht)
    as (server1 & s1 & Hrun1 & _ & _ & Hprogress).
  destruct (handle_request_stray server s Ht Hall) as (s1' & Hrun & Hframe).
  rewrite Hrun in Hrun1. injection Hrun1 as <- <-.
  rewrite Hrun, Hc, He. simpl.
  assert (start_time <= clock (sys s1'))%Q as Hstart1.
  { destruct Hframe as (_ & _ & _ & Hck & _). lra. }
  destruct (IH server s1' Ht Hc He) as (s2 & -> & Hframe2 & Hend); try done.
  - by destruct Hframe as (_ & _ & _ & _ & ? & _).
  - unfold rounds_needed.
    destruct Hprogress as [Hlen | (Hck & Hlen & _)].
    + destruct (Qltb (clock (sys s1') - start_time) 300); lia.
    + assert (Qltb (clock (sys s1') - start_time) 300 = false) as ->
        by (apply Qltb_false; lra).
      lia.
  - eexists. split; [reflexivity|]. split; [|done].
    by apply stray_frame_trans with s1'.
Qed.

(** When the listener starts and every request that reaches it is a
    stray one (no [/callback] path, or neither [code] nor [error]), the
    interactive flow returns [False] with the credentials as they were:
    it opened the authorization page, answered 404 to the requests off
    the path, logged the time-out, and took at least 300 seconds. *)
Theorem stray_requests_time_out (s : state) :
  bind_fails (io (sys s)) = false ->
  all_stray (incoming (sys s)) ->
  exists s' n,
    authorize_interactive s = (Ret false, s') /\
    same_credentials s s' /\
    logged (sys s') = logged (sys s) ++ [(ERROR, "Authorization timed out")] /\
    trace (sys s') =
      trace (sys s) ++
      [Bind "localhost" 8080; authorization_page (self s)] ++
      repeat (SendResponse 404) n /\
    (300 <= clock (sys s') - clock (sys s))%Q.
Proof.
  intros Hb Hall.
  unfold authorize_interactive, try_except, get_authorization_url, print,
    HTTPServer_bind, bind. simpl. rewrite Hb. simpl.
  match goal with
  | |- context [wait_for_callback ?f ?st ?srv ?s0] =>
      destruct (wait_for_callback_strays f st srv s0)
        as (s1 & Hrun & Hframe & Hend); try done
  end.
  { simpl. lra. }
  { unfold rounds_needed, enough_fuel. simpl.
    destruct (Qltb (clock (sys s) - clock (sys s)) 300); lia. }
  rewrite Hrun. simpl. simpl in Hend.
  destruct Hframe as ((H1 & H2 & H3) & H4 & _ & _ & _ & n & H5).
  simpl in *. eexists. exists n. split; [reflexivity|]. simpl.
  unfold same_credentials. simpl. split_and!; try done.
  - by rewrite H4.
  - by rewrite H5, <- !app_assoc.
Qed.

Lemma stray_requests_time_out_witness :
  exists s',
    authorize_interactive
      (state_with 1000 1010 [] [{| wait_ms := 1000; req := favicon |}]) =
    (Ret false, s').
Proof.
  destruct (stray_requests_time_out
    (state_with 1000 1010 [] [{| wait_ms := 1000; req := favicon |}]))
    as (s' & n & H & _).
  - reflexivity.
  - apply Forall_cons. split; [reflexivity | apply Forall_nil_2].
  - exists s'. exact H.
Defined.

(** When the listener cannot be bound, the interactive flow returns
    [False] at once: no browser is opened, no request is read, no time
    passes, the credentials are as they were, and the failure is
    logged. *)
Theorem busy_port_fails_fast (s : state) :
  bind_fails (io (sys s)) = true ->
  exists s',
    authorize_interactive s = (Ret false, s') /\
    same_credentials s s' /\
    trace (sys s') = trace (sys s) /\
    clock (sys s') = clock (sys s) /\
    incoming (sys s') = incoming (sys s) /\
    logged (sys s') =
      logged (sys s) ++ [(ERROR, "Interactive authorization failed")].
Proof.
  intros Hb.
  unfold authorize_interactive, try_except, get_authorization_url, print,
    HTTPServer_bind, bind. simpl. rewrite Hb. simpl.
  eexists. split; [reflexivity|]. by split_and!.
Qed.

Lemma busy_port_fails_fast_witness :
  exists s',
    authorize_interactive
      {| self := auth_until 1000;
         sys := faulty port_taken (world_at 1010 Missing) |} =
    (Ret false, s') /\
    trace (sys s') = [].
Proof.
  destruct (busy_port_fails_fast
    {| self := auth_until 1000;
       sys := faulty port_taken (world_at 1010 Missing) |} eq_refl)
    as (s' & H1 & _ & H2 & _).
  exists s'. split; [exact H1 | exact H2].
Defined.

(** A round of the waiting loop that serves a redirect with a code ends
    the loop with the code recorded. *)
Lemma wait_for_callback_code_redirect (fuel : nat) (start_time : Q)
    (server : HTTPServer) (s : state) (a : arrival) (rest : list arrival)
    (c : string) :
  (clock (sys s) - start_time < 300)%Q ->
  incoming (sys s) = a :: rest ->
  (wait_ms a < 1000 * timeout server)%N ->
  String.prefix "/callback" (req_path (req a)) = true ->
  query_params (req a) !! "code" = Some c ->
  c <> "" ->
  wait_for_callback (S fuel) start_time server s =
    (Ret {| auth_code := JStr c; auth_error := auth_error server;
            timeout := timeout server |},
     {| self := self s;
        sys := with_trace (trace (sys s) ++ [SendResponse 200])
                 (with_incoming rest
                    (with_clock (clock (sys s) + milliseconds (wait_ms a))
                       (sys s))) |}).
Proof.
  intros Hc Ei Hw Hpath Hcode Hne.
  rewrite wait_for_callback_unfold. unfold bind at 1. simpl.
  apply Qltb_true in Hc as ->. apply N.ltb_lt in Hw.
  unfold handle_request, do_GET, bind. simpl. rewrite Ei, Hw. simpl.
  rewrite Hpath, Hcode. simpl.
  destruct c as [|c0 c]; [done|]. reflexivity.
Qed.

(** When the first request to reach the listener, within its time-out,
    is a redirect to [/callback] with a code, the flow answers 200,
    exchanges that code, and returns what the exchange returns: the
    requests still to come are not read, and the only time that passed is
    the wait for that request. *)
Theorem first_code_is_exchanged (s : state) (a : arrival)
    (rest : list arrival) (c : string) :
  bind_fails (io (sys s)) = false ->
  incoming (sys s) = a :: rest ->
  (wait_ms a < 300000)%N ->
  String.prefix "/callback" (req_path (req a)) = true ->
  query_params (req a) !! "code" = Some c ->
  c <> "" ->
  exists s',
    authorize_interactive s = (Ret (exchange_succeeds (sys s)), s') /\
    trace (sys s') =
      trace (sys s) ++
      [Bind "localhost" 8080; authorization_page (self s);
       SendResponse 200; code_request (self s) (JStr c)] /\
    incoming (sys s') = rest /\
    (clock (sys s') == clock (sys s) + milliseconds (wait_ms a))%Q.
Proof.
  intros Hb Ei Hw Hpath Hcode Hc.
  unfold authorize_interactive, try_except, get_authorization_url, print,
    HTTPServer_bind, bind. simpl. rewrite Hb. simpl.
  unfold enough_fuel. simpl.
  match goal with
  | |- context [wait_for_callback (S ?f) ?st ?srv ?s0] =>
      rewrite (wait_for_callback_code_redirect f st srv s0 a rest c)
  end; try done; [|simpl; lra].
  simpl. destruct c as [|c0 c]; [done|]. simpl.
  match goal with
  | |- context [_exchange_code_for_tokens ?code ?s0] =>
      destruct (_exchange_code_for_tokens_outcome code s0)
        as (s2 & Hrun & _ & Htr & _ & Hin & Hck & _)
  end.
  rewrite Hrun. simpl in *.
  eexists. split; [reflexivity|]. rewrite Htr, Hin, Hck.
  split_and!; try done.
  by rewrite <- !app_assoc.
Qed.

Lemma first_code_is_exchanged_witness :
  exists s',
    authorize_interactive
      (first_run 1010 [Response 200 "" (Some response_T1)]
         [{| wait_ms := 5000; req := code_ABC |}]) =
    (Ret true, s') /\
    incoming (sys s') = [].
Proof.
  destruct (first_code_is_exchanged
    (first_run 1010 [Response 200 "" (Some response_T1)]
       [{| wait_ms := 5000; req := code_ABC |}])
    {| wait_ms := 5000; req := code_ABC |} [] "ABC")
    as (s' & H1 & _ & H2 & _).
  - reflexivity.
  - reflexivity.
  - reflexivity.
  - reflexivity.
  - reflexivity.
  - discriminate.
  - exists s'. split; [exact H1 | exact H2].
Defined.

(** * Properties of the callers *)



Lemma get_valid_access_token_fresh (s : state) :
  fresh s -> get_valid_access_token s = (Ret (access_token (self s)), s).
Proof.
  intros Hfresh. unfold get_valid_access_token, bind at 1.
  by rewrite (is_token_valid_fresh s Hfresh).
Qed.


(** [revoke_tokens] returns in every case, and when it returns [False] the
    token file is as it was. *)
Lemma revoke_tokens_returns (s : state) :
  exists b s',
    revoke_tokens s = (Ret b, s') /\
    (b = false -> token_file (sys s') = token_file (sys s)).
Proof.
  unfold revoke_tokens, try_except, bind at 1 2. simpl.
  destruct (truthy (refresh_token (self s))).
  - unfold bind at 1. rewrite requests_post_cases.
    destruct (replies (sys s)) as [|[|c t b] rest]; simpl;
      try (by eexists _, _).
    destruct (negb (c =? 200)%Z);
      unfold bind, os_path_exists, os_remove; simpl;
      destruct (token_file (sys s)) eqn:Ef; simpl; rewrite ?Ef;
      destruct (remove_fails (io (sys s))); simpl; rewrite ?Ef;
      eexists _, _; (split; [reflexivity|]); simpl; by rewrite ?Ef.
  - unfold bind, os_path_exists, os_remove; simpl;
      destruct (token_file (sys s)) eqn:Ef; simpl; rewrite ?Ef;
      destruct (remove_fails (io (sys s))); simpl; rewrite ?Ef;
      eexists _, _; (split; [reflexivity|]); simpl; by rewrite ?Ef.
Qed.

Lemma get_headers_fresh (st : state) :
  fresh st ->
  get_headers st =
    (Done [("Authorization",
            [Lit "Zoho-oauthtoken "; Shown (access_token (self st))]);
           ("Content-Type", [Lit "application/json"])], st).
Proof.
  intros Hfresh. unfold get_headers, bind_, lift.
  rewrite (get_valid_access_token_fresh st Hfresh).
  destruct Hfresh as (Ha & _). unfold held in Ha. by rewrite Ha.
Qed.

Lemma stateless_ret {S A} (a : A) : stateless (ret_ (S := S) a).
Proof. by intros s. Qed.

Lemma stateless_raise {S A} (e : error) :
  stateless (raise_ (S := S) (A := A) e).
Proof. by intros s. Qed.

Lemma stateless_bind {S A B} (c : R S A) (k : A -> R S B) :
  stateless c -> (forall a, stateless (k a)) -> stateless (bind_ c k).
Proof.
  intros Hc Hk s. unfold bind_. destruct (Hc s) as [H1 H2].
  destruct (c s) as [[a|e|] s1]; simpl in *; subst; try done.
  apply Hk.
Qed.

Lemma stateless_jget {S} (j : json) (key : string) (d : json) :
  stateless (jget (S := S) j key d).
Proof. by destruct j. Qed.

Lemma stateless_jget_or {S} (j : json) (key : string) (d : pyval) :
  stateless (jget_or (S := S) j key d).
Proof. by destruct j. Qed.

Lemma stateless_index0 {S} (j : json) : stateless (index0 (S := S) j).
Proof. destruct j as [| | |[|]|[|]|]; done. Qed.

Lemma stateless_len {S} (j : json) : stateless (len (S := S) j).
Proof. by destruct j. Qed.

Lemma stateless_item {S} (d : pyval) (key : string) :
  stateless (item (S := S) d key).
Proof.
  destruct d; try done. unfold item. by destruct (entry _ _).
Qed.

Lemma stateless_parsed_data {S} (r : pyval) :
  stateless (parsed_data (S := S) r).
Proof.
  apply stateless_bind; [apply stateless_item|]. by intros [].
Qed.

Lemma stateless_if {S A} (b : bool) (c1 c2 : R S A) :
  stateless c1 -> stateless c2 -> stateless (if b then c1 else c2).
Proof. by destruct b. Qed.

Ltac stateless :=
  repeat first
    [ apply stateless_ret | apply stateless_raise | apply stateless_jget
    | apply stateless_jget_or | apply stateless_index0 | apply stateless_len
    | apply stateless_item | apply stateless_parsed_data
    | apply stateless_if | apply stateless_bind | intros ? ].

(** A tool whose body is one request followed by the reading of its
    result. *)
Lemma tool_after_request {A} (name : string) (c : R process pyval)
    (k : pyval -> R process A) (p p1 : process) (a : ZohoAuth) (r0 : pyval) :
  auth p = Some a ->
  c p = (Done r0, p1) ->
  (forall r, stateless (k r)) ->
  exists res p',
    require_auth name (bind_ c k) p = (res, p') /\
    res = (k r0 p1).1 /\
    auth p' = auth p1 /\ environ p' = environ p1 /\
    api_replies p' = api_replies p1 /\ api_calls p' = api_calls p1 /\
    token_file (host p') = token_file (host p1) /\
    trace (host p') = trace (host p1).
Proof.
  intros Ha Hc Hk.
  unfold require_auth, bind_ at 1 2. simpl. unfold no_auth. rewrite Ha.
  simpl. unfold try_, bind_ at 1. rewrite Hc.
  destruct (Hk r0 p1) as [H1 H2].
  destruct (k r0 p1) as [[v|e|] p2]; simpl in *; subst; [| |done].
  - by eexists _, _.
  - by eexists _, _.
Qed.

Section ServerFacts.
Variable py_int : string -> option Z.
Variable timeout_limit : Z.


(** A request made with the token [tok] that [get_valid_access_token]
    gave. *)
Lemma make_api_request_with_token (p : process) (a : ZohoAuth) (tok : json)
    (s1 : state) (t : Z) (endpoint method : string) (data params_ : pyval) :
  auth p = Some a ->
  get_valid_access_token {| self := a; sys := host p |} = (Ret tok, s1) ->
  truthy tok = true ->
  py_int (default "30" (environ p !! "REQUEST_TIMEOUT")) = Some t ->
  (0 < t <= timeout_limit)%Z ->
  method ∈ ["GET"; "POST"; "PUT"; "DELETE"] ->
  exists r c,
    make_api_request py_int timeout_limit endpoint method data params_ p =
      (Done r, sent c (synced s1 p)) /\
    verb c = method /\ timeout_s c = t /\ params c = params_ /\
    json_body c =
      (if String.eqb method "POST" || String.eqb method "PUT" then data
       else PNone) /\
    headers c =
      [("Authorization", [Lit "Zoho-oauthtoken "; Shown tok]);
       ("Content-Type", [Lit "application/json"])] /\
    url c =
      [Shown (py_or (api_domain_for_tokens (self s1))
                (JStr (api_domain (cfg (self s1)))));
       Lit ("/crm/" +:+ default "v2" (environ p !! "ZOHO_API_VERSION")
            +:+ "/" +:+ endpoint)] /\
    reported r /\
    (entry r "status" = Some (PStr "success") <->
     exists code t ct j rest,
       api_replies p = ApiResponse code t ct (Some j) :: rest /\
       is_ok code = true /\
       entry r "data" = Some (PJson j)) /\
    (forall code tx ct j rest,
       api_replies p = ApiResponse code tx ct (Some j) :: rest ->
       is_ok code = true ->
       r = PDict [("status", PStr "success"); ("status_code", PInt code);
                  ("data", PJson j)]).
Proof.
  intros Ha Hrun Htok Hint Ht Hm.
  assert ((t <=? 0)%Z = false) as Hneg by (apply Z.leb_gt; lia).
  assert ((timeout_limit <? t)%Z = false) as Hbig by (apply Z.ltb_ge; lia).
  unfold make_api_request, bind_ at 1. simpl.
  unfold no_auth. rewrite Ha.
  unfold bind_ at 1, on_auth at 1. rewrite Ha.
  unfold get_headers, bind_ at 1, lift. rewrite Hrun, Htok. simpl.
  unfold bind_ at 1, on_auth at 1. simpl.
  unfold bind_ at 1 2. simpl. rewrite Hint.
  unfold bind_ at 1. simpl.
  unfold try_, requests_request, bind_, json_of, reported, sent, synced.
  repeat (apply elem_of_cons in Hm as [-> | Hm]);
    [| | | |by apply elem_of_nil in Hm];
    simpl; rewrite Hneg, Hbig; simpl;
    (destruct (api_replies p) as [|[| |code tx ct body] rest] eqn:Er; simpl;
     [ | | |
       destruct (is_ok code) eqn:Hok; simpl;
       [|destruct (String.prefix "application/json" (default "" ct)); simpl];
       destruct body as [j|]; simpl ];
     eexists _, _; (split; [reflexivity|]); simpl; rewrite ?Er;
     split_and!; try done; try (by left); try (by right);
     try (intros ? ? ? ? ? [= -> _ _ -> _] ?; congruence);
     first [ split; [done | by intros (? & ? & ? & ? & ? & ? & ? & ?)]
           | split; [by intros; eexists _, _, _, _, _ | done]
           | split; [done | intros (? & ? & ? & ? & ? & [= -> ] & ? & ?);
                            congruence ] ]).
Qed.

(** A request made with a token that is still valid. *)
Lemma make_api_request_fresh (p : process) (a : ZohoAuth) (t : Z)
    (endpoint method : string) (data params_ : pyval) :
  auth p = Some a ->
  fresh {| self := a; sys := host p |} ->
  py_int (default "30" (environ p !! "REQUEST_TIMEOUT")) = Some t ->
  (0 < t <= timeout_limit)%Z ->
  method ∈ ["GET"; "POST"; "PUT"; "DELETE"] ->
  exists r c,
    make_api_request py_int timeout_limit endpoint method data params_ p =
      (Done r, sent c p) /\
    verb c = method /\ timeout_s c = t /\ params c = params_ /\
    json_body c =
      (if String.eqb method "POST" || String.eqb method "PUT" then data
       else PNone) /\
    headers c =
      [("Authorization", [Lit "Zoho-oauthtoken "; Shown (access_token a)]);
       ("Content-Type", [Lit "application/json"])] /\
    url c =
      [Shown (py_or (api_domain_for_tokens a) (JStr (api_domain (cfg a))));
       Lit ("/crm/" +:+ default "v2" (environ p !! "ZOHO_API_VERSION")
            +:+ "/" +:+ endpoint)] /\
    reported r /\
    (entry r "status" = Some (PStr "success") <->
     exists code t ct j rest,
       api_replies p = ApiResponse code t ct (Some j) :: rest /\
       is_ok code = true /\
       entry r "data" = Some (PJson j)) /\
    (forall code tx ct j rest,
       api_replies p = ApiResponse code tx ct (Some j) :: rest ->
       is_ok code = true ->
       r = PDict [("status", PStr "success"); ("status_code", PInt code);
                  ("data", PJson j)]).
Proof.
  intros Ha Hfresh Hint Ht Hm.
  destruct (make_api_request_with_token p a (access_token a)
    {| self := a; sys := host p |} t endpoint method data params_ Ha
    (get_valid_access_token_fresh _ Hfresh) (proj1 Hfresh) Hint Ht Hm)
    as (r & c & Hrun & H).
  exists r, c. split; [|exact H].
  rewrite Hrun. f_equal. destruct p. simpl in *. by subst.
Qed.




(** [get_record_by_id] with a valid token, on a successful reply whose
    ['data'] is a list (or is missing, which counts as the empty list),
    reports success with the first record of the list, and with [None]
    when the list is empty. *)
Theorem get_record_by_id_first (p : process) (a : ZohoAuth) (t : Z)
    (module_name record_id : string) (code : Z) (tx : string)
    (ct : option string) (m : gmap string json) (rest : list api_reply)
    (xs : list json) :
  auth p = Some a ->
  fresh {| self := a; sys := host p |} ->
  py_int (default "30" (environ p !! "REQUEST_TIMEOUT")) = Some t ->
  (0 < t <= timeout_limit)%Z ->
  api_replies p = ApiResponse code tx ct (Some (JObj m)) :: rest ->
  is_ok code = true ->
  default (JArr []) (m !! "data") = JArr xs ->
  exists p',
    get_record_by_id py_int timeout_limit module_name record_id p =
      (Done (PDict
         [("status", PStr "success"); ("module", PStr module_name);
          ("record_id", PStr record_id);
          ("record", from_option PJson PNone (head xs))]), p') /\
    api_replies p' = rest.
Proof.
  intros Ha Hfresh Hint Ht Er Hcode Hd.
  unfold get_record_by_id.
  match goal with
  | |- context [make_api_request py_int timeout_limit ?e ?m ?d ?q] =>
      pose proof (make_api_request_fresh p a t e m d q Ha Hfresh Hint Ht
                    ltac:(repeat (apply elem_of_cons;
                                  first [left; reflexivity | right])))
        as (r0 & c & Hrun & _ & _ & _ & _ & _ & _ & _ & _ & Hok)
  end.
  match goal with
  | |- context [require_auth ?n (bind_ ?c0 ?k)] =>
      destruct (tool_after_request n c0 k p (sent c p) a r0 Ha Hrun)
        as (res & p' & -> & Hres & _ & _ & Hrep & _)
  end.
  { intros r. stateless. }
  exists p'. split; [|by rewrite Hrep; simpl; rewrite Er].
  f_equal. rewrite Hres, (Hok _ _ _ _ _ Er Hcode). simpl.
  unfold bind_ at 1. simpl. unfold bind_ at 1. simpl. rewrite Hd.
  by destruct xs.
Qed.


(** When [get_valid_access_token] yields nothing, [make_api_request]
    raises the exception of [get_headers]: the caller gets no error
    dictionary, and no request reaches the API. *)
Theorem api_request_without_token (p : process) (a : ZohoAuth) (v : json)
    (s1 : state) (endpoint method : string) (data params_ : pyval) :
  auth p = Some a ->
  get_valid_access_token {| self := a; sys := host p |} = (Ret v, s1) ->
  truthy v = false ->
  exists p',
    make_api_request py_int timeout_limit endpoint method data params_ p =
      (Raised (PlainException "No valid access token available"), p') /\
    auth p' = Some (self s1) /\ host p' = sys s1 /\
    api_calls p' = api_calls p /\ api_replies p' = api_replies p.
Proof.
  intros Ha Hrun Hv.
  unfold make_api_request, bind_ at 1. simpl. unfold no_auth. rewrite Ha.
  unfold bind_ at 1, on_auth at 1. rewrite Ha.
  unfold get_headers, bind_ at 1, lift. rewrite Hrun, Hv. simpl.
  by eexists.
Qed.

(** [revoke_authentication], once [auth] is set, returns a dictionary
    in every case and sends nothing to the API. It reports success only
    when the object holds no token any more and the token file is gone,
    and an error only when the token file is as it was. *)
Theorem revoke_authentication_reports (p : process) (a : ZohoAuth) :
  auth p = Some a ->
  exists r p',
    revoke_authentication p = (Done r, p') /\
    api_calls p' = api_calls p /\ api_replies p' = api_replies p /\
    (r = PDict [("status", PStr "success");
                ("message", PStr "Authentication revoked successfully")] /\
     auth p' = Some (cleared a) /\ token_file (host p') = Missing
     \/
     r = PDict [("status", PStr "error");
                ("message", PStr "Failed to revoke authentication")] /\
     token_file (host p') = token_file (host p)).
Proof.
  intros Ha.
  unfold revoke_authentication, require_auth, bind_ at 1 2. simpl.
  unfold no_auth. rewrite Ha. simpl.
  unfold try_, bind_, on_auth, lift. rewrite Ha.
  destruct (revoke_tokens_returns {| self := a; sys := host p |})
    as (b & s' & Hrun & Hfalse).
  rewrite Hrun. destruct b; simpl.
  - apply revoke_tokens_true in Hrun as (Hself & Hfile & _). simpl in *.
    eexists _, _. split; [reflexivity|]. simpl. split_and!; try done.
    left. by rewrite Hself.
  - eexists _, _. split; [reflexivity|]. simpl. split_and!; try done.
    right. split; [done|]. by apply Hfalse.
Qed.



(** While [auth] is not set and the client credentials are missing from
    the environment, a tool wrapped by [require_auth] raises the
    [ValueError] of [init_auth] before its body runs: nothing changes,
    and nothing is logged. *)
Theorem unconfigured_tool_raises {A} (p : process) (name : string)
    (func : R process A) :
  auth p = None ->
  configured (environ p) = false ->
  exists msg,
    require_auth name func p = (Raised (ValueError msg), p).
Proof.
  intros Ha Hc. unfold require_auth, bind_ at 1, no_auth. simpl.
  rewrite Ha. unfold bind_ at 1, init_auth, bind_ at 1. simpl.
  unfold configured in Hc. apply negb_false_iff in Hc. rewrite Hc.
  by eexists.
Qed.

(** [bulk_create_records] with more than 100 records returns its error
    dictionary and does nothing else: no token is asked for, no request
    is sent. *)
Theorem bulk_create_limit (p : process) (a : ZohoAuth)
    (module_name : string) (records_data : list pyval)
    (trigger_workflow : bool) :
  auth p = Some a ->
  100 < length records_data ->
  bulk_create_records py_int timeout_limit module_name records_data trigger_workflow p =
    (Done (PDict
       [("status", PStr "error");
        ("message",
         PStr "Maximum 100 records allowed per bulk operation")]), p).
Proof.
  intros Ha Hlen.
  unfold bulk_create_records, require_auth, bind_ at 1, no_auth. simpl.
  rewrite Ha. unfold bind_ at 1. simpl. unfold try_.
  assert ((100 <? Z.of_nat (length records_data))%Z = true) as ->
    by (apply Z.ltb_lt; lia).
  reflexivity.
Qed.

End ServerFacts.

(** ** The callers in the scenarios *)



Lemma api_request_without_token_witness :
  exists p',
    make_api_request decimal a_day "Leads" "GET" PNone PNone
      (crm (Some (self (first_run 1010 [] [])))
         (faulty port_taken (world_at 1010 Missing)) []) =
      (Raised (PlainException "No valid access token available"), p') /\
    api_calls p' = [].
Proof.
  destruct (api_request_without_token decimal a_day
    (crm (Some (self (first_run 1010 [] [])))
       (faulty port_taken (world_at 1010 Missing)) [])
    (self (first_run 1010 [] [])) JNull
    (get_valid_access_token
       {| self := self (first_run 1010 [] []);
          sys := faulty port_taken (world_at 1010 Missing) |}).2
    "Leads" "GET" PNone PNone)
    as (p' & H & _ & _ & Hc & _).
  - reflexivity.
  - vm_compute. reflexivity.
  - reflexivity.
  - exists p'. split; [exact H | exact Hc].
Defined.

Lemma unconfigured_tool_raises_witness :
  exists msg,
    require_auth "get_modules" (ret_ PNone)
      (crm None (world_at 1010 Missing) []) =
    (Raised (ValueError msg), crm None (world_at 1010 Missing) []).
Proof.
  apply (unconfigured_tool_raises (crm None (world_at 1010 Missing) [])
           "get_modules" (ret_ PNone)); reflexivity.
Defined.

Lemma bulk_create_limit_witness :
  bulk_create_records decimal a_day "Leads" (repeat (PDict []) 101) true
    crm_ready =
  (Done (PDict
     [("status", PStr "error");
      ("message", PStr "Maximum 100 records allowed per bulk operation")]),
   crm_ready).
Proof.
  apply (bulk_create_limit decimal a_day crm_ready (auth_until 2000) "Leads"
           (repeat (PDict []) 101) true).
  - reflexivity.
  - rewrite repeat_length. lia.
Defined.

Lemma revoke_authentication_reports_witness :
  exists r p',
    revoke_authentication
      (crm (Some (auth_until 2000))
         (sys (state_with 2000 1010 [Response 200 "" None] [])) []) =
    (Done r, p').
Proof.
  destruct (revoke_authentication_reports
    (crm (Some (auth_until 2000))
       (sys (state_with 2000 1010 [Response 200 "" None] [])) [])
    (auth_until 2000) eq_refl) as (r & p' & H & _).
  exists r, p'. exact H.
Defined.



Lemma get_record_by_id_first_witness :
  exists p',
    get_record_by_id decimal a_day "Leads" "1" crm_ready =
    (Done (PDict
       [("status", PStr "success"); ("module", PStr "Leads");
        ("record_id", PStr "1");
        ("record", PJson (JObj (<["id" := JStr "1"]> ∅)))]), p').
Proof.
  destruct (get_record_by_id_first decimal a_day crm_ready (auth_until 2000) 30
              "Leads" "1" 200 "" (Some "application/json") two_leads []
              [JObj (<["id" := JStr "1"]> ∅); JObj (<["id" := JStr "2"]> ∅)])
    as (p' & H & _).
  - reflexivity.
  - split; [reflexivity|]. split; [reflexivity|].
    exists 2000%Q. split; [reflexivity|]. simpl. lra.
  - reflexivity.
  - unfold a_day. lia.
  - reflexivity.
  - reflexivity.
  - reflexivity.
  - exists p'. exact H.
Defined.

